(** * A shallow embedding of the text-to-speech / speech-to-text gateway

    The repository holds three near-duplicate HTTP gateways in front of the
    Google Cloud text-to-speech and speech-to-text clients:

    - [app.py]  : FastAPI, file-mode synthesis, synchronous recognition with
                  a long-running fallback;
    - [main.py] : FastAPI, streaming synthesis, synchronous recognition
                  without fallback;
    - [test.py] : Flask, file-mode synthesis under a fixed name, long-running
                  recognition retried up to three times.

    The handlers are embedded as programs of a state-and-exception monad over
    a [world] (vendor-call trace, wall-clock reads, file system); the vendor,
    the clock and the success of disk operations are an arbitrary
    [environment]. *)

From Stdlib Require Import ZArith QArith String Ascii List Lia.
From Stdlib Require Import DecimalString DecimalZ.
From stdpp Require Import gmap strings list.
From Equations Require Import Equations.
From Equations.Prop Require Import Logic.
Import ListNotations.

Local Open Scope Z_scope.
Local Open Scope string_scope.
Local Open Scope list_scope.

(** ** The Python runtime and the web framework

    What the handlers use of Python floats and of Starlette's exception class
    is not part of the repository; it is an interface here. *)

Class PyRuntime := {
  (** Python [float], the type of [time.time()] *)
  float : Type;
  (** [end_time - start_time] *)
  float_sub : float -> float -> float;
  (** [round(x, 2)] *)
  round2 : float -> float;
  (** [int(x)] *)
  int_of_float : float -> Z;
  (** [str(e)] for [e = HTTPException(status_code, detail)] *)
  http_exception_str : Z -> string -> string
}.

(** [bytes] objects. *)
Definition bytes := list Byte.byte.

(** [str(n)] / [f"{n}"] for a Python [int]. *)
Definition str_int (n : Z) : string := NilEmpty.string_of_int (Z.to_int n).

(** ** Exceptions and results *)

Inductive exn :=
| HTTPException (status_code : Z) (detail : string)
| VendorError (message : string)
| IndexError
| UnboundLocalError
| FileNotFoundError (filename : string)
| OSError (message : string).

Inductive result (A : Type) :=
| Ok (a : A)
| Raise (e : exn).
Arguments Ok {A} a.
Arguments Raise {A} e.

Definition str_exn `{PyRuntime} (e : exn) : string :=
  match e with
  | HTTPException status_code detail => http_exception_str status_code detail
  | VendorError message => message
  | IndexError => "list index out of range"
  | UnboundLocalError =>
      "cannot access local variable 'response' where it is not associated with a value"
  | FileNotFoundError filename =>
      "[Errno 2] No such file or directory: '" +:+ filename +:+ "'"
  | OSError message => message
  end.

(** ** Vendor data: requests, configurations, responses *)

Inductive audio_encoding := LINEAR16.

Record voice_selection_params := {
  voice_language_code : string;
  voice_name : string
}.

Record audio_config := {
  audio_encoding_ : audio_encoding;
  speaking_rate : Q;
  audio_sample_rate_hertz : option Z
}.

Record synthesis_request := {
  input_text : string;
  voice : voice_selection_params;
  audio_cfg : audio_config
}.

Record synthesis_response := { audio_content : bytes }.

Record recognition_config := {
  encoding : audio_encoding;
  sample_rate_hertz : Z;
  language_code : string;
  model : string;
  audio_channel_count : Z;
  enable_automatic_punctuation : bool;
  enable_word_confidence : bool;
  enable_word_time_offsets : bool
}.

Record speech_recognition_alternative := { transcript : string }.

Record speech_recognition_result := {
  alternatives : list speech_recognition_alternative
}.

Record recognize_response := { results : list speech_recognition_result }.

(** The handle returned by [long_running_recognize]; [operation.result(timeout=t)]
    either returns the response or raises. *)
Record operation := { operation_outcome : Z -> result recognize_response }.

(** ** The world *)

Inductive vendor_call :=
| TextToSpeechClient_init
| SpeechClient_init
| Synthesize (req : synthesis_request)
| Recognize (config : recognition_config) (audio : bytes) (timeout : option Z)
| LongRunningRecognize (config : recognition_config) (audio : bytes)
| OperationResult (timeout : Z).

Record world := {
  (** vendor calls issued so far, oldest first *)
  trace : list vendor_call;
  (** number of [time.time()] reads so far *)
  clock_reads : nat;
  (** the files on disk *)
  files : gmap string bytes
}.

(** How [with open(name, "wb") as out: out.write(content)] ends. *)
Inductive write_outcome :=
(** the file is opened and written *)
| Written
(** [open] raises: the disk is as it was *)
| OpenRaises (e : exn)
(** the file is opened, hence created or truncated, and writing or closing it
    raises: the file holds the first [kept] bytes *)
| WriteRaises (kept : nat) (e : exn).

(** The environment decides every vendor call, every clock read and every
    operation on the disk; a vendor outcome may depend on the calls issued
    before it, a disk outcome on the files there are. *)
Record environment `{PyRuntime} := {
  makedirs_outcome : gmap string bytes -> string -> result unit;
  file_write_outcome : gmap string bytes -> string -> bytes -> write_outcome;
  tts_client_outcome : list vendor_call -> result unit;
  stt_client_outcome : list vendor_call -> result unit;
  synthesize_outcome : list vendor_call -> synthesis_request -> result synthesis_response;
  recognize_outcome :
    list vendor_call -> recognition_config -> bytes -> option Z -> result recognize_response;
  long_running_outcome :
    list vendor_call -> recognition_config -> bytes -> result operation;
  wall_clock : nat -> float
}.

(** ** The monad of handler bodies *)

Definition M (A : Type) : Type := world -> result A * world.

Definition ret {A} (a : A) : M A := fun w => (Ok a, w).

Definition raise {A} (e : exn) : M A := fun w => (Raise e, w).

Definition bind {A B} (m : M A) (k : A -> M B) : M B :=
  fun w =>
    match m w with
    | (Ok a, w') => k a w'
    | (Raise e, w') => (Raise e, w')
    end.

(** [try: m  except Exception as e: handler e] *)
Definition try_except {A} (m : M A) (handler : exn -> M A) : M A :=
  fun w =>
    match m w with
    | (Ok a, w') => (Ok a, w')
    | (Raise e, w') => handler e w'
    end.

(** A pure computation that may raise. *)
Definition lift {A} (r : result A) : M A := fun w => (r, w).

Notation "'do' x <- m ; k" := (bind m (fun x => k))
  (at level 10, x name, m at level 100, k at level 200).
Notation "'run' m ; k" := (bind m (fun _ => k))
  (at level 10, m at level 100, k at level 200).

(** ** Primitive effects *)

(** A vendor call is appended to the trace. *)
Definition issue (c : vendor_call) (w : world) : world :=
  {| trace := trace w ++ [c]; clock_reads := clock_reads w; files := files w |}.

(** The clock has been read once more. *)
Definition tick (w : world) : world :=
  {| trace := trace w; clock_reads := S (clock_reads w); files := files w |}.

(** A file has been written, replacing what the name held. *)
Definition store (name : string) (content : bytes) (w : world) : world :=
  {| trace := trace w; clock_reads := clock_reads w;
     files := <[name := content]> (files w) |}.

Section Effects.
Context `{PyRuntime} (env : environment).

(** [time.time()] *)
Definition time_time : M float :=
  fun w => (Ok (wall_clock env (clock_reads w)), tick w).

(** [texttospeech.TextToSpeechClient()] *)
Definition TextToSpeechClient : M unit :=
  fun w => (tts_client_outcome env (trace w), issue TextToSpeechClient_init w).

(** [speech.SpeechClient()] *)
Definition SpeechClient : M unit :=
  fun w => (stt_client_outcome env (trace w), issue SpeechClient_init w).

(** [client.synthesize_speech(input=..., voice=..., audio_config=...)] *)
Definition synthesize_speech (req : synthesis_request) : M synthesis_response :=
  fun w => (synthesize_outcome env (trace w) req, issue (Synthesize req) w).

(** [client.recognize(config=..., audio=..., timeout=...)] *)
Definition recognize (config : recognition_config) (audio : bytes) (timeout : option Z)
  : M recognize_response :=
  fun w =>
    (recognize_outcome env (trace w) config audio timeout,
     issue (Recognize config audio timeout) w).

(** [client.long_running_recognize(config=..., audio=...)] *)
Definition long_running_recognize (config : recognition_config) (audio : bytes)
  : M operation :=
  fun w =>
    (long_running_outcome env (trace w) config audio,
     issue (LongRunningRecognize config audio) w).

(** [operation.result(timeout=t)] *)
Definition operation_result (op : operation) (timeout : Z) : M recognize_response :=
  fun w => (operation_outcome op timeout, issue (OperationResult timeout) w).

(** [os.makedirs(name, exist_ok=True)]; directories are not files. *)
Definition makedirs (name : string) : M unit :=
  fun w => (makedirs_outcome env (files w) name, w).

(** [with open(name, "wb") as out: out.write(content)] *)
Definition write_file (name : string) (content : bytes) : M unit :=
  fun w =>
    match file_write_outcome env (files w) name content with
    | Written => (Ok tt, store name content w)
    | OpenRaises e => (Raise e, w)
    | WriteRaises kept e => (Raise e, store name (take kept content) w)
    end.

End Effects.

(** [os.path.exists(name)] *)
Definition path_exists (name : string) : M bool :=
  fun w => (Ok (match files w !! name with Some _ => true | None => false end), w).

(** [with open(name, "rb") as f: f.read()] *)
Definition read_file (name : string) : M bytes :=
  fun w =>
    match files w !! name with
    | Some content => (Ok content, w)
    | None => (Raise (FileNotFoundError name), w)
    end.

(** ** Python values: truthiness, indexing, joining *)

(** [bool(s)] for a [str] *)
Definition truthy_str (s : string) : bool :=
  match s with
  | EmptyString => false
  | String _ _ => true
  end.

(** [bool(l)] for a [list] or a [bytes] object *)
Definition truthy_list {A} (l : list A) : bool :=
  match l with
  | [] => false
  | _ :: _ => true
  end.

(** [l[i]] for a non-negative index *)
Definition getitem {A} (l : list A) (i : nat) : result A :=
  match l !! i with
  | Some x => Ok x
  | None => Raise IndexError
  end.

(** [''.join(parts)] *)
Definition str_join (parts : list string) : string := String.concat "" parts.

(** [range(n)] *)
Definition range (n : nat) : list Z := map Z.of_nat (seq 0 n).

(** ** Transcript extraction

    [''.join([result.alternatives[0].transcript
              for result in response.results if result.alternatives])],
    the same expression in all three files. *)

Fixpoint top_transcripts (rs : list speech_recognition_result) : result (list string) :=
  match rs with
  | [] => Ok []
  | r :: rest =>
      if truthy_list (alternatives r) then
        match getitem (alternatives r) 0 with
        | Raise e => Raise e
        | Ok alternative =>
            match top_transcripts rest with
            | Raise e => Raise e
            | Ok ts => Ok (transcript alternative :: ts)
            end
        end
      else top_transcripts rest
  end.

Definition extract_transcript (response : recognize_response) : result string :=
  match top_transcripts (results response) with
  | Raise e => Raise e
  | Ok parts => Ok (str_join parts)
  end.

(** ** Streaming helper of main.py *)

(** [io.BytesIO]: the buffer and the read position. *)
Record BytesIO := { getvalue : bytes; tell : nat }.

Definition BytesIO_new (initial : bytes) : BytesIO :=
  {| getvalue := initial; tell := 0 |}.

(** [buffer.read(size)]: at most [size] bytes from the position on. *)
Definition BytesIO_read (buffer : BytesIO) (size : nat) : bytes * BytesIO :=
  let chunk := take size (drop (tell buffer) (getvalue buffer)) in
  (chunk, {| getvalue := getvalue buffer; tell := tell buffer + length chunk |}).

Definition chunk_size : nat := 4096.

#[local] Opaque chunk_size.

(** The [while True] loop of [audio_stream_generator]; the list holds the
    chunks in the order they are yielded. *)
Equations? stream_loop (buffer : BytesIO) : list bytes
  by wf (length (getvalue buffer) - tell buffer)%nat lt :=
  stream_loop buffer with inspect (BytesIO_read buffer chunk_size) := {
    | exist _ (chunk, buffer') Hread with inspect (truthy_list chunk) := {
        | exist _ false _ => []
        | exist _ true Htruthy => chunk :: stream_loop buffer' } }.
Proof.
  clear stream_loop.
  set (chunk := take chunk_size (drop (tell buffer) (getvalue buffer))) in *.
  assert (0 < length chunk)%nat by (destruct chunk; [discriminate | simpl; lia]).
  assert (length chunk <= length (getvalue buffer) - tell buffer)%nat.
  { subst chunk. rewrite length_take, length_drop. lia. }
  lia.
Qed.

#[local] Transparent chunk_size.

Definition audio_stream_generator (audio_content_bytes : bytes) : list bytes :=
  stream_loop (BytesIO_new audio_content_bytes).

(** ** What a handler hands back to its framework *)

Inductive json_value `{PyRuntime} :=
| JString (s : string)
| JNumber (x : float).

(** A Python [dict] literal with string keys, in source order. *)
Definition json_object `{PyRuntime} := list (string * json_value).

Inductive handler_return `{PyRuntime} :=
(** FastAPI: a returned [dict] is sent as JSON with status 200 *)
| ReturnDict (d : json_object)
(** FastAPI: [StreamingResponse(content, media_type=..., headers=...)] *)
| StreamingResponse (content : list bytes) (media_type : string)
    (headers : list (string * string))
(** Flask: [return jsonify(d), status] *)
| ReturnTuple (d : json_object) (status : Z).

(** The HTTP status the framework answers with: FastAPI turns a raised
    [HTTPException] into a response with its status code; any other exception
    leaving the handler is not a response of the handler. *)
Definition http_status `{PyRuntime} (r : result handler_return) : option Z :=
  match r with
  | Ok (ReturnDict _) => Some 200
  | Ok (StreamingResponse _ _ _) => Some 200
  | Ok (ReturnTuple _ status) => Some status
  | Raise (HTTPException status_code _) => Some status_code
  | Raise _ => None
  end.

Definition client_error (status : option Z) : Prop :=
  exists s, status = Some s /\ 400 <= s < 500.

Definition server_error (status : option Z) : Prop :=
  exists s, status = Some s /\ 500 <= s < 600.

(** The JSON body of the response: the returned object, or [{"detail": d}]
    for an [HTTPException]. *)
Definition json_body `{PyRuntime} (r : result handler_return) : option json_object :=
  match r with
  | Ok (ReturnDict d) => Some d
  | Ok (ReturnTuple d _) => Some d
  | Ok (StreamingResponse _ _ _) => None
  | Raise (HTTPException _ detail) => Some [("detail", JString detail)]
  | Raise _ => None
  end.

(** [d.get(key)] on a JSON object. *)
Fixpoint json_get `{PyRuntime} (key : string) (d : json_object) : option json_value :=
  match d with
  | [] => None
  | (k, v) :: rest => if String.eqb k key then Some v else json_get key rest
  end.

(** Requests. *)
Record TextToSpeechRequest := { text : string }.

Record UploadFile := { filename : string; upload_content : bytes }.

Inductive http_method := GET | POST.

Record flask_request := {
  method : http_method;
  (** the form field [text_input], when the form has it *)
  form_text_input : option string
}.

(** The start of the world: nothing called, nothing read, a given disk. *)
Definition initial_world (disk : gmap string bytes) : world :=
  {| trace := []; clock_reads := 0; files := disk |}.

(** ** The handlers

    Statement by statement as in the source. Left out are the statements
    without effect on the response, the vendor or the files: the [logger] and
    [print] calls, and the construction of the request and configuration
    objects, which are the records below. *)

(** ** app.py *)

Module App.
Section Handlers.
Context `{PyRuntime} (env : environment).

Definition synthesis_request_of (text : string) : synthesis_request :=
  {| input_text := text;
     voice := {| voice_language_code := "en-US"; voice_name := "en-US-Studio-O" |};
     audio_cfg := {| audio_encoding_ := LINEAR16; speaking_rate := 1%Q;
                     audio_sample_rate_hertz := None |} |}.

Definition text_to_speech (request : TextToSpeechRequest) : M handler_return :=
  try_except
    (let text := text request in
     if negb (truthy_str text) then
       raise (HTTPException 400 "Please provide text to convert")
     else
       do response <- synthesize_speech env (synthesis_request_of text);
       do now <- time_time env;
       let timestamp := int_of_float now in
       let audio_filename := "static/output_" +:+ str_int timestamp +:+ ".wav" in
       run write_file env audio_filename (audio_content response);
       ret (ReturnDict
              [("audio_path", JString ("/static/output_" +:+ str_int timestamp +:+ ".wav"));
               ("text", JString text)]))
    (fun e => raise (HTTPException 500 (str_exn e))).

Definition config : recognition_config :=
  {| encoding := LINEAR16; sample_rate_hertz := 24000; language_code := "en-US";
     model := "command_and_search"; audio_channel_count := 1;
     enable_automatic_punctuation := true;
     enable_word_confidence := false; enable_word_time_offsets := false |}.

Definition speech_to_text (file : UploadFile) : M handler_return :=
  try_except
    (do start_time <- time_time env;
     let audio_content := upload_content file in
     if negb (truthy_list audio_content) then
       raise (HTTPException 400 "Empty audio file")
     else
       do transcript <-
         try_except
           (do response <- recognize env config audio_content None;
            lift (extract_transcript response))
           (fun e =>
              do operation <- long_running_recognize env config audio_content;
              do response <- operation_result operation 90;
              lift (extract_transcript response));
       do end_time <- time_time env;
       let processing_time := float_sub end_time start_time in
       if negb (truthy_str transcript) then
         ret (ReturnDict [("transcript", JString "No speech detected");
                          ("processing_time_seconds", JNumber (round2 processing_time))])
       else
         ret (ReturnDict [("transcript", JString transcript);
                          ("processing_time_seconds", JNumber (round2 processing_time))]))
    (fun e => raise (HTTPException 500 (str_exn e))).

End Handlers.
End App.

(** ** main.py *)

Module Main.
Section Handlers.
Context `{PyRuntime} (env : environment).

Definition synthesis_request_of (text : string) : synthesis_request :=
  {| input_text := text;
     voice := {| voice_language_code := "en-US"; voice_name := "en-US-Studio-O" |};
     audio_cfg := {| audio_encoding_ := LINEAR16; speaking_rate := 1%Q;
                     audio_sample_rate_hertz := Some 24000 |} |}.

Definition text_to_speech (request : TextToSpeechRequest) : M handler_return :=
  try_except
    (let text := text request in
     if negb (truthy_str text) then
       raise (HTTPException 400 "Please provide text to convert")
     else
       do tts_response <- synthesize_speech env (synthesis_request_of text);
       ret (StreamingResponse
              (audio_stream_generator (audio_content tts_response))
              "audio/wav"
              [("Content-Disposition", "inline; filename=synthesized_audio.wav")]))
    (fun e =>
       raise (HTTPException 500 ("Failed to synthesize speech: " +:+ str_exn e))).

Definition config : recognition_config :=
  {| encoding := LINEAR16; sample_rate_hertz := 24000; language_code := "en-US";
     model := "latest_short"; audio_channel_count := 1;
     enable_automatic_punctuation := true;
     enable_word_confidence := false; enable_word_time_offsets := false |}.

Definition failure_detail (e : exn) : string :=
  "Speech-to-text failed. Ensure audio format (encoding, sample rate) is correct and within limits, and check network. Error: "
  +:+ str_exn e.

Definition speech_to_text (file : UploadFile) : M handler_return :=
  do start_time <- time_time env;
  let audio_content := upload_content file in
  if negb (truthy_list audio_content) then
    raise (HTTPException 400 "Empty audio file")
  else
    try_except
      (do response <- recognize env config audio_content (Some 10);
       do transcript <- lift (extract_transcript response);
       do end_time <- time_time env;
       let processing_time := float_sub end_time start_time in
       if negb (truthy_str transcript) then
         ret (ReturnDict [("transcript", JString "No speech detected");
                          ("processing_time_seconds", JNumber (round2 processing_time))])
       else
         ret (ReturnDict [("transcript", JString transcript);
                          ("processing_time_seconds", JNumber (round2 processing_time))]))
      (fun e => raise (HTTPException 500 (failure_detail e))).

End Handlers.
End Main.

(** ** test.py *)

Module Legacy.
Section Handlers.
Context `{PyRuntime} (env : environment).

Definition synthesis_request_of (text : string) : synthesis_request :=
  {| input_text := text;
     voice := {| voice_language_code := "en-US"; voice_name := "en-US-Studio-O" |};
     audio_cfg := {| audio_encoding_ := LINEAR16; speaking_rate := 1%Q;
                     audio_sample_rate_hertz := None |} |}.

Definition generate_audio (request : flask_request) : M handler_return :=
  try_except
    (let text :=
       match method request with
       | POST => default "Hello, how are you?" (form_text_input request)
       | GET => "Hello, how are you Akshay?"
       end in
     if negb (truthy_str text) then
       ret (ReturnTuple [("error", JString "Please provide some text.")] 400)
     else
       run TextToSpeechClient env;
       do response <- synthesize_speech env (synthesis_request_of text);
       let audio_filename := "static/output.wav" in
       run makedirs env "static";
       run write_file env audio_filename (audio_content response);
       let response_data :=
         [("audio_path", JString "/static/output.wav"); ("text", JString text)] in
       ret (ReturnTuple response_data 200))
    (fun e => ret (ReturnTuple [("error", JString (str_exn e))] 500)).

Definition config : recognition_config :=
  {| encoding := LINEAR16; sample_rate_hertz := 24000; language_code := "en-US";
     model := "latest_long"; audio_channel_count := 1;
     enable_automatic_punctuation := false;
     enable_word_confidence := true; enable_word_time_offsets := true |}.

(** How the [for attempt in range(3)] loop is left. *)
Inductive loop_exit :=
| Break (response : recognize_response)
| Return (r : handler_return)
| Exhausted.

Fixpoint retry_loop (attempts : list Z) (audio : bytes) : M loop_exit :=
  match attempts with
  | [] => ret Exhausted
  | attempt :: rest =>
      try_except
        (do operation <- long_running_recognize env config audio;
         do response <- operation_result operation 90;
         ret (Break response))
        (fun api_exception =>
           if (attempt <? 2)%Z then retry_loop rest audio
           else ret (Return (ReturnTuple [("error", JString (str_exn api_exception))] 500)))
  end.

Definition generate_text : M handler_return :=
  try_except
    (let audio_path := "static/output.wav" in
     do found <- path_exists audio_path;
     if negb found then
       ret (ReturnTuple [("error", JString "Audio file not found.")] 404)
     else
       do audio_content <- read_file audio_path;
       run SpeechClient env;
       do exit <- retry_loop (range 3) audio_content;
       match exit with
       | Return r => ret r
       | Exhausted => raise UnboundLocalError
       | Break response =>
           do transcript <- lift (extract_transcript response);
           ret (ReturnTuple [("transcript", JString transcript)] 200)
       end)
    (fun e => ret (ReturnTuple [("error", JString (str_exn e))] 500)).

End Handlers.
End Legacy.

(** ** Specification-level notions used by the statements *)

(** The transcripts the extraction keeps: the first alternative of every
    segment that has one, in order. *)
Definition top_alternatives (rs : list speech_recognition_result) : list string :=
  flat_map (fun r => match alternatives r with
                     | [] => []
                     | alternative :: _ => [transcript alternative]
                     end) rs.

(** One attempt on the long-running path: start the operation, wait for it. *)
Definition long_running_attempt `{PyRuntime} (env : environment)
    (config : recognition_config) (audio : bytes) : M recognize_response :=
  do operation <- long_running_recognize env config audio;
  operation_result operation 90.

(** The vendor calls issued between two worlds. *)
Definition new_calls (w w' : world) : list vendor_call :=
  drop (length (trace w)) (trace w').

Definition is_synthesize (c : vendor_call) : bool :=
  match c with Synthesize _ => true | _ => false end.

Definition is_recognize (c : vendor_call) : bool :=
  match c with Recognize _ _ _ => true | _ => false end.

Definition is_long_running (c : vendor_call) : bool :=
  match c with LongRunningRecognize _ _ => true | _ => false end.

Definition count_calls (p : vendor_call -> bool) (t : list vendor_call) : nat :=
  length (List.filter p t).

(** The JSON object both FastAPI transcription handlers return for what was
    heard between two clock reads. *)
Definition transcript_reply `{PyRuntime} (heard : string) (start_time end_time : float)
  : handler_return :=
  ReturnDict
    [("transcript",
      JString (if truthy_str heard then heard else "No speech detected"));
     ("processing_time_seconds",
      JNumber (round2 (float_sub end_time start_time)))].

(** The file app.py writes for a whole-second timestamp. *)
Definition output_name (timestamp : Z) : string :=
  "static/output_" +:+ str_int timestamp +:+ ".wav".

(** The text test.py synthesizes for a request. *)
Definition requested_text (request : flask_request) : string :=
  match method request with
  | POST => default "Hello, how are you?" (form_text_input request)
  | GET => "Hello, how are you Akshay?"
  end.

(** The handler answered: it returned, or raised the framework's
    [HTTPException]; no other exception left it. *)
Definition handled `{PyRuntime} (r : result handler_return) : Prop :=
  match r with
  | Ok _ => True
  | Raise (HTTPException _ _) => True
  | Raise _ => False
  end.

(** ** A concrete runtime and concrete vendors, for the examples *)

(** [int(x)] on a rational: truncation towards zero. *)
Definition Q_trunc (q : Q) : Z := Z.quot (Qnum q) (Z.pos (Qden q)).

(** [round(x, 2)] on a rational: nearest hundredth, ties to even. *)
Definition Q_round2 (q : Q) : Q :=
  let scaled := (Qnum q * 100)%Z in
  let den := Z.pos (Qden q) in
  let low := (scaled / den)%Z in
  let twice_rest := (2 * (scaled mod den))%Z in
  let up := if (den <? twice_rest)%Z then true
            else if (twice_rest <? den)%Z then false
            else Z.odd low in
  Qred ((if up then low + 1 else low)%Z # 100).

(** Rationals stand in for doubles; [HTTPException.__str__] is Starlette's
    ["{status_code}: {detail}"]. *)
Definition rational_runtime : PyRuntime :=
  {| float := Q;
     float_sub := fun a b => Qred (a - b);
     round2 := Q_round2;
     int_of_float := Q_trunc;
     http_exception_str := fun status_code detail =>
       str_int status_code +:+ ": " +:+ detail |}.

(** A vendor that answers by the number of calls issued before. *)
Definition scripted_vendor
    (synth : nat -> result synthesis_response)
    (sync : nat -> result recognize_response)
    (long : nat -> result operation)
    (clock : nat -> Q) : @environment rational_runtime :=
  {| makedirs_outcome := fun _ _ => Ok tt;
     file_write_outcome := fun _ _ _ => Written;
     tts_client_outcome := fun _ => Ok tt;
     stt_client_outcome := fun _ => Ok tt;
     synthesize_outcome := fun t _ => synth (length t);
     recognize_outcome := fun t _ _ _ => sync (length t);
     long_running_outcome := fun t _ _ => long (length t);
     wall_clock := (clock : nat -> @float rational_runtime) |}.

Definition segment (ts : list string) : speech_recognition_result :=
  {| alternatives := map (fun t => {| transcript := t |}) ts |}.

Definition hello_world : recognize_response :=
  {| results := [segment ["hello "]; segment ["world"]] |}.

Definition no_segments : recognize_response := {| results := [] |}.

Definition finished (r : result recognize_response) : result operation :=
  Ok {| operation_outcome := fun _ => r |}.

Definition one_byte : bytes := [Byte.x52].
Definition riff : bytes := [Byte.x52; Byte.x49; Byte.x46; Byte.x46].

Definition clock_example (n : nat) : Q := (17000000002 + 3 * Z.of_nat n) # 10.

Definition clip : UploadFile := {| filename := "clip.wav"; upload_content := riff |}.

(** A disk on which test.py has saved its audio. *)
Definition disk_with_output : gmap string bytes := {["static/output.wav" := riff]}.

(** The synchronous call fails, the long-running path succeeds. *)
Definition env_sync_down : @environment rational_runtime :=
  scripted_vendor (fun _ => Ok {| audio_content := riff |})
    (fun _ => Raise (VendorError "503 unavailable"))
    (fun _ => finished (Ok hello_world))
    clock_example.

(** Every vendor call fails. *)
Definition env_all_down : @environment rational_runtime :=
  scripted_vendor (fun _ => Raise (VendorError "quota exceeded"))
    (fun _ => Raise (VendorError "503 unavailable"))
    (fun n => Raise (VendorError ("deadline exceeded after call " +:+ str_int (Z.of_nat n))))
    clock_example.

(** The first long-running operation cannot be started, the next one works. *)
Definition env_flaky : @environment rational_runtime :=
  scripted_vendor (fun _ => Ok {| audio_content := riff |})
    (fun _ => Raise (VendorError "503 unavailable"))
    (fun n => if (n <=? 1)%nat then Raise (VendorError "try again")
              else finished (Ok hello_world))
    clock_example.

(** Every vendor call succeeds; recognition hears nothing. *)
Definition env_silence : @environment rational_runtime :=
  scripted_vendor (fun _ => Ok {| audio_content := riff |})
    (fun _ => Ok no_segments)
    (fun _ => finished (Ok no_segments))
    clock_example.

(** Every vendor call succeeds; recognition hears "hello world". *)
Definition env_hello : @environment rational_runtime :=
  scripted_vendor (fun n => Ok {| audio_content := if (n =? 0)%nat then riff else one_byte |})
    (fun _ => Ok hello_world)
    (fun _ => finished (Ok hello_world))
    clock_example.

(** The vendor's clients cannot be built. *)
Definition env_no_credentials : @environment rational_runtime :=
  {| makedirs_outcome := fun _ _ => Ok tt;
     file_write_outcome := fun _ _ _ => Written;
     tts_client_outcome := fun _ => Raise (VendorError "credentials not found");
     stt_client_outcome := fun _ => Raise (VendorError "credentials not found");
     synthesize_outcome := fun _ _ => Ok {| audio_content := riff |};
     recognize_outcome := fun _ _ _ _ => Ok hello_world;
     long_running_outcome := fun _ _ _ => finished (Ok hello_world);
     wall_clock := (clock_example : nat -> @float rational_runtime) |}.

(** Every vendor call succeeds, and there is no directory [static] to write
    to: [open] raises. *)
Definition env_no_static_dir : @environment rational_runtime :=
  {| makedirs_outcome := fun _ _ => Ok tt;
     file_write_outcome := fun _ name _ => OpenRaises (FileNotFoundError name);
     tts_client_outcome := fun _ => Ok tt;
     stt_client_outcome := fun _ => Ok tt;
     synthesize_outcome := fun _ _ => Ok {| audio_content := riff |};
     recognize_outcome := fun _ _ _ _ => Ok hello_world;
     long_running_outcome := fun _ _ _ => finished (Ok hello_world);
     wall_clock := (clock_example : nat -> @float rational_runtime) |}.

(** Every vendor call succeeds, and the disk fills up after two bytes. *)
Definition env_disk_full : @environment rational_runtime :=
  {| makedirs_outcome := fun _ _ => Ok tt;
     file_write_outcome := fun _ _ _ =>
       WriteRaises 2 (OSError "[Errno 28] No space left on device");
     tts_client_outcome := fun _ => Ok tt;
     stt_client_outcome := fun _ => Ok tt;
     synthesize_outcome := fun _ _ => Ok {| audio_content := riff |};
     recognize_outcome := fun _ _ _ _ => Ok hello_world;
     long_running_outcome := fun _ _ _ => finished (Ok hello_world);
     wall_clock := (clock_example : nat -> @float rational_runtime) |}.

(** Every vendor call succeeds; the synthesis returns one audio at first and
    another one once two calls have been issued. *)
Definition env_two_audios : @environment rational_runtime :=
  scripted_vendor (fun n => Ok {| audio_content := if (n <=? 1)%nat then riff else one_byte |})
    (fun _ => Ok hello_world)
    (fun _ => finished (Ok hello_world))
    clock_example.

(** A clock that advances by a second and a half per read. *)
Definition clock_slow (n : nat) : Q := (17000000002 + 15 * Z.of_nat n) # 10.

(** Every vendor call succeeds, under the slow clock. *)
Definition env_slow : @environment rational_runtime :=
  scripted_vendor (fun n => Ok {| audio_content := if (n =? 0)%nat then riff else one_byte |})
    (fun _ => Ok hello_world)
    (fun _ => finished (Ok hello_world))
    clock_slow.

(** ** test_api.py: the test client

    The script talks to a server over HTTP and reads the file the server
    wrote, from the directory the server runs in: client and server share the
    world. The two endpoints it posts to are parameters. *)

(** What [requests] hands the script: the status code, and what
    [response.json()] returns when the body is a JSON object. *)
Record client_response `{PyRuntime} := {
  status_code_of : Z;
  json_of : option json_object
}.

(** The response the client sees for a handler's outcome: FastAPI answers an
    exception that is no [HTTPException] with a plain 500. *)
Definition respond `{PyRuntime} (r : result handler_return) : client_response :=
  {| status_code_of := default 500 (http_status r); json_of := json_body r |}.

(** The exceptions the script does not catch. *)
Inductive script_error :=
| JSONDecodeError
| KeyError (key : string)
| AttributeError.

Inductive script_result (A : Type) :=
| Finished (a : A)
| Traceback (error : script_error).
Arguments Finished {A} a.
Arguments Traceback {A} error.

(** [s.lstrip('/')] *)
Fixpoint lstrip_slash (s : string) : string :=
  match s with
  | EmptyString => EmptyString
  | String c rest => if Ascii.eqb c "/" then lstrip_slash rest else s
  end.

Fixpoint has_slash (s : string) : bool :=
  match s with
  | EmptyString => false
  | String c rest => Ascii.eqb c "/" || has_slash rest
  end.

(** [os.path.basename(path)]: what follows the last slash. *)
Fixpoint basename (path : string) : string :=
  match path with
  | EmptyString => EmptyString
  | String c rest =>
      if Ascii.eqb c "/" || has_slash rest then basename rest else path
  end.

Module TestApi.
Section Script.
Context `{PyRuntime}.
(** [requests.post(f"{BASE_URL}/api/text-to-speech", json=payload)] and
    [requests.post(f"{BASE_URL}/api/speech-to-text", files=files)] *)
Variable post_text_to_speech : TextToSpeechRequest -> M handler_return.
Variable post_speech_to_text : UploadFile -> M handler_return.

Definition payload : TextToSpeechRequest :=
  {| text := "Hello, this is a test of the text to speech API. How does it sound?" |}.

Definition test_text_to_speech (w : world) : script_result (option string) * world :=
  let (r, w1) := post_text_to_speech payload w in
  let response := respond r in
  if Z.eqb (status_code_of response) 200 then
    match json_of response with
    | None => (Traceback JSONDecodeError, w1)
    | Some data =>
        match json_get "audio_path" data with
        | None => (Traceback (KeyError "audio_path"), w1)
        | Some audio_path =>
            match json_get "text" data with
            | None => (Traceback (KeyError "text"), w1)
            | Some _ =>
                match audio_path with
                | JString path => (Finished (Some (lstrip_slash path)), w1)
                | JNumber _ => (Traceback AttributeError, w1)
                end
            end
        end
    end
  else (Finished None, w1).

Definition test_speech_to_text (audio_file_path : string) (w : world)
  : script_result unit * world :=
  match files w !! audio_file_path with
  | None => (Finished tt, w)
  | Some content =>
      let upload := {| filename := basename audio_file_path; upload_content := content |} in
      (* start_time = time.time() *)
      let w1 := tick w in
      let (r, w2) := post_speech_to_text upload w1 in
      let response := respond r in
      if Z.eqb (status_code_of response) 200 then
        match json_of response with
        | None => (Traceback JSONDecodeError, w2)
        | Some data =>
            match json_get "transcript" data with
            | None => (Traceback (KeyError "transcript"), w2)
            | Some _ => (Finished tt, w2)
            end
        end
      else (Finished tt, w2)
  end.

(** The [if __name__ == "__main__"] block. *)
Definition main (w : world) : script_result unit * world :=
  match test_text_to_speech w with
  | (Traceback error, w1) => (Traceback error, w1)
  | (Finished None, w1) => (Finished tt, w1)
  | (Finished (Some audio_file_path), w1) =>
      if truthy_str audio_file_path then test_speech_to_text audio_file_path w1
      else (Finished tt, w1)
  end.

End Script.
End TestApi.

(** * Properties *)

(** ** Transcript extraction *)

Lemma top_transcripts_total (rs : list speech_recognition_result) :
  top_transcripts rs = Ok (top_alternatives rs).
Proof.
  induction rs as [|r rest IH]; [reflexivity|].
  cbn [top_transcripts top_alternatives flat_map].
  destruct (alternatives r) as [|alternative others]; cbn.
  - exact IH.
  - rewrite IH. reflexivity.
Qed.

Lemma extract_transcript_total (response : recognize_response) :
  extract_transcript response = Ok (str_join (top_alternatives (results response))).
Proof. unfold extract_transcript. now rewrite top_transcripts_total. Qed.

Lemma top_alternatives_app (rs1 rs2 : list speech_recognition_result) :
  top_alternatives (rs1 ++ rs2) = top_alternatives rs1 ++ top_alternatives rs2.
Proof. unfold top_alternatives. apply flat_map_app. Qed.

(** C10. Extraction never fails, whatever the number of alternatives of each
    segment: it returns the joined first alternatives of the segments that
    have one, and a segment with an empty [alternatives] list contributes
    nothing, so [alternatives[0]] is never evaluated on an empty list. *)
Theorem extraction_skips_empty_segments :
  (forall response,
      extract_transcript response
      = Ok (str_join (top_alternatives (results response))))
  /\ (forall response e, extract_transcript response <> Raise e)
  /\ (forall before after,
         extract_transcript
           {| results := before ++ {| alternatives := [] |} :: after |}
         = extract_transcript {| results := before ++ after |})
  /\ (forall r rest,
         truthy_list (alternatives r) = true ->
         exists alternative,
           getitem (alternatives r) 0 = Ok alternative
           /\ top_transcripts (r :: rest)
              = Ok (transcript alternative :: top_alternatives rest)).
Proof.
  split; [exact extract_transcript_total|].
  split; [intros response e; now rewrite extract_transcript_total|].
  split.
  - intros before after. rewrite !extract_transcript_total. cbn [results].
    now rewrite !top_alternatives_app.
  - intros r rest Hnonempty. rewrite top_transcripts_total.
    unfold top_alternatives. cbn [flat_map].
    destruct (alternatives r) as [|alternative others]; [discriminate|].
    exists alternative. split; reflexivity.
Qed.

Lemma extraction_skips_empty_segments_witness :
  truthy_list (alternatives (segment ["hello "; "hallo "])) = true
  /\ exists alternative,
       getitem (alternatives (segment ["hello "; "hallo "])) 0 = Ok alternative
       /\ top_transcripts [segment ["hello "; "hallo "]; segment []; segment ["world"]]
          = Ok (transcript alternative :: top_alternatives [segment []; segment ["world"]]).
Proof.
  split; [reflexivity|].
  apply (proj2 (proj2 (proj2 extraction_skips_empty_segments))).
  reflexivity.
Defined.

(** ** The chunk generator *)

Lemma stream_loop_step (buffer : BytesIO) :
  stream_loop buffer =
  let chunk := take chunk_size (drop (tell buffer) (getvalue buffer)) in
  if truthy_list chunk
  then chunk :: stream_loop {| getvalue := getvalue buffer;
                               tell := tell buffer + length chunk |}
  else [].
Proof.
  funelim (stream_loop buffer); cbn zeta;
    match goal with Ht : truthy_list _ = _ |- _ => rewrite Ht end;
    reflexivity.
Qed.

Lemma truthy_list_false {A} (l : list A) : truthy_list l = false <-> l = [].
Proof. destruct l; cbn; split; intros E; (reflexivity || discriminate E). Qed.

(** What the loop yields from a position on, by induction on the bytes left. *)
Lemma stream_loop_spec (left : nat) : forall buffer,
  (length (getvalue buffer) - tell buffer <= left)%nat ->
  let rest := drop (tell buffer) (getvalue buffer) in
  concat (stream_loop buffer) = rest
  /\ Forall (fun chunk => chunk <> []) (stream_loop buffer)
  /\ Forall (fun chunk => length chunk = chunk_size) (removelast (stream_loop buffer))
  /\ Forall (fun chunk => (length chunk <= chunk_size)%nat) (stream_loop buffer).
Proof.
  induction left as [|left IH]; intros buffer Hleft rest.
  - assert (Hrest : rest = []).
    { apply length_zero_iff_nil. subst rest. rewrite length_drop. lia. }
    rewrite stream_loop_step. cbn zeta. fold rest. rewrite Hrest.
    rewrite take_nil. cbn. repeat split; constructor.
  - rewrite stream_loop_step. cbn zeta. fold rest.
    destruct (truthy_list (take chunk_size rest)) eqn:Htruthy.
    2:{ apply truthy_list_false in Htruthy.
        assert (Hrest : rest = []).
        { destruct rest; [reflexivity|]. unfold chunk_size in Htruthy. discriminate. }
        rewrite Hrest. repeat split; constructor. }
    set (chunk := take chunk_size rest) in *.
    set (buffer' := {| getvalue := getvalue buffer; tell := tell buffer + length chunk |}).
    assert (Hchunk : chunk <> []) by (intros E; rewrite E in Htruthy; discriminate).
    assert (Hpos : (0 < length chunk)%nat) by (destruct chunk; [congruence | simpl; lia]).
    assert (Hlen : length chunk = Nat.min chunk_size (length rest))
      by (subst chunk; apply length_take).
    assert (Hrestlen : length rest = (length (getvalue buffer) - tell buffer)%nat)
      by (subst rest; apply length_drop).
    assert (Hrest' : drop (tell buffer') (getvalue buffer') = drop chunk_size rest).
    { subst buffer' rest. cbn [getvalue tell]. rewrite <- drop_drop.
      set (rest := drop (tell buffer) (getvalue buffer)) in *.
      destruct (Nat.le_gt_cases chunk_size (length rest)).
      - f_equal. lia.
      - rewrite !drop_ge by lia. reflexivity. }
    destruct (IH buffer') as (Hcat & Hne & Hfull & Hmax).
    { subst buffer'. cbn [getvalue tell]. lia. }
    rewrite Hrest' in Hcat.
    repeat split.
    + cbn [concat]. rewrite Hcat. subst chunk. apply take_drop.
    + constructor; assumption.
    + destruct (stream_loop buffer') as [|next more] eqn:Hnext; [constructor|].
      change (removelast (chunk :: next :: more))
        with (chunk :: removelast (next :: more)).
      constructor; [|assumption].
      assert (Hmore : drop chunk_size rest <> []).
      { rewrite <- Hcat. inversion Hne as [|? ? Hnext_ne _]; subst.
        destruct next; [congruence|discriminate]. }
      assert (chunk_size < length rest)%nat.
      { destruct (Nat.le_gt_cases (length rest) chunk_size); [|assumption].
        exfalso. apply Hmore. apply drop_ge. assumption. }
      lia.
    + constructor; [lia | assumption].
Qed.

Lemma audio_stream_generator_spec (audio_content_bytes : bytes) :
  concat (audio_stream_generator audio_content_bytes) = audio_content_bytes
  /\ Forall (fun chunk => chunk <> []) (audio_stream_generator audio_content_bytes)
  /\ Forall (fun chunk => length chunk = chunk_size)
       (removelast (audio_stream_generator audio_content_bytes))
  /\ Forall (fun chunk => (length chunk <= chunk_size)%nat)
       (audio_stream_generator audio_content_bytes).
Proof.
  unfold audio_stream_generator.
  apply (stream_loop_spec (length audio_content_bytes) (BytesIO_new audio_content_bytes)).
  cbn. lia.
Qed.

(** C9. The chunks yielded by [audio_stream_generator] concatenate to the
    input buffer; every chunk but possibly the last is 4096 bytes long, no
    chunk is empty, and the empty buffer yields no chunk. *)
Theorem audio_stream_generator_chunks (audio_content_bytes : bytes) :
  concat (audio_stream_generator audio_content_bytes) = audio_content_bytes
  /\ Forall (fun chunk => length chunk = 4096%nat)
       (removelast (audio_stream_generator audio_content_bytes))
  /\ Forall (fun chunk => chunk <> []) (audio_stream_generator audio_content_bytes)
  /\ audio_stream_generator [] = [].
Proof.
  destruct (audio_stream_generator_spec audio_content_bytes)
    as (Hcat & Hne & Hfull & _).
  split; [assumption|]. split; [assumption|]. split; [assumption|].
  unfold audio_stream_generator. rewrite stream_loop_step. reflexivity.
Qed.

(** ** How the handlers run

    One equation per handler and per outcome of the vendor calls it issues;
    the properties below are read off them. *)

Lemma truthy_list_true {A} (l : list A) : l <> [] -> truthy_list l = true.
Proof. destruct l; [congruence | reflexivity]. Qed.

Lemma truthy_str_true (s : string) : s <> "" -> truthy_str s = true.
Proof. destruct s; [congruence | reflexivity]. Qed.

Lemma new_calls_app (w w' : world) (suffix : list vendor_call) :
  trace w' = trace w ++ suffix -> new_calls w w' = suffix.
Proof. intros E. unfold new_calls. rewrite E. apply drop_app_length. Qed.

Section Runs.
Context `{PyRuntime} (env : environment).

(** The long-running path issues [long_running_recognize] once, then at most
    the wait for its result; it neither reads the clock nor writes a file. *)
Lemma long_running_attempt_calls config audio w r w' :
  long_running_attempt env config audio w = (r, w') ->
  clock_reads w' = clock_reads w
  /\ files w' = files w
  /\ (trace w' = trace w ++ [LongRunningRecognize config audio]
      \/ trace w' = trace w ++ [LongRunningRecognize config audio; OperationResult 90]).
Proof.
  unfold long_running_attempt, bind, long_running_recognize, operation_result.
  destruct (long_running_outcome env (trace w) config audio) as [op|e];
    intros [= <- <-]; cbn; rewrite <- ?app_assoc; auto.
Qed.

Lemma app_sync_success file w response :
  upload_content file <> [] ->
  recognize_outcome env (trace w) App.config (upload_content file) None = Ok response ->
  App.speech_to_text env file w
  = (Ok (transcript_reply (str_join (top_alternatives (results response)))
           (wall_clock env (clock_reads w)) (wall_clock env (S (clock_reads w)))),
     tick (issue (Recognize App.config (upload_content file) None) (tick w))).
Proof.
  intros Haudio Hsync.
  unfold App.speech_to_text, try_except, bind, recognize, time_time, lift.
  rewrite (truthy_list_true _ Haudio). cbn [negb tick trace clock_reads files].
  rewrite Hsync, extract_transcript_total.
  unfold transcript_reply. destruct (truthy_str _); reflexivity.
Qed.

Lemma app_sync_failure file w e :
  upload_content file <> [] ->
  recognize_outcome env (trace w) App.config (upload_content file) None = Raise e ->
  App.speech_to_text env file w
  = match long_running_attempt env App.config (upload_content file)
            (issue (Recognize App.config (upload_content file) None) (tick w)) with
    | (Ok response, w2) =>
        (Ok (transcript_reply (str_join (top_alternatives (results response)))
               (wall_clock env (clock_reads w)) (wall_clock env (S (clock_reads w)))),
         tick w2)
    | (Raise e2, w2) => (Raise (HTTPException 500 (str_exn e2)), w2)
    end.
Proof.
  intros Haudio Hsync.
  unfold App.speech_to_text, try_except, bind, recognize, time_time, lift.
  rewrite (truthy_list_true _ Haudio). cbn [negb tick trace clock_reads files].
  rewrite Hsync.
  unfold long_running_attempt, bind, long_running_recognize, operation_result.
  cbn [issue tick trace clock_reads files].
  destruct (long_running_outcome env _ App.config (upload_content file)) as [op|e2];
    [|reflexivity].
  destruct (operation_outcome op 90) as [response|e2]; [|reflexivity].
  rewrite extract_transcript_total.
  unfold transcript_reply. destruct (truthy_str _); reflexivity.
Qed.

Lemma main_sync_success file w response :
  upload_content file <> [] ->
  recognize_outcome env (trace w) Main.config (upload_content file) (Some 10)
  = Ok response ->
  Main.speech_to_text env file w
  = (Ok (transcript_reply (str_join (top_alternatives (results response)))
           (wall_clock env (clock_reads w)) (wall_clock env (S (clock_reads w)))),
     tick (issue (Recognize Main.config (upload_content file) (Some 10)) (tick w))).
Proof.
  intros Haudio Hsync.
  unfold Main.speech_to_text, try_except, bind, recognize, time_time, lift.
  rewrite (truthy_list_true _ Haudio). cbn [negb tick trace clock_reads files].
  rewrite Hsync, extract_transcript_total.
  unfold transcript_reply. destruct (truthy_str _); reflexivity.
Qed.

Lemma main_sync_failure file w e :
  upload_content file <> [] ->
  recognize_outcome env (trace w) Main.config (upload_content file) (Some 10)
  = Raise e ->
  Main.speech_to_text env file w
  = (Raise (HTTPException 500 (Main.failure_detail e)),
     issue (Recognize Main.config (upload_content file) (Some 10)) (tick w)).
Proof.
  intros Haudio Hsync.
  unfold Main.speech_to_text, try_except, bind, recognize, time_time, lift.
  rewrite (truthy_list_true _ Haudio). cbn [negb tick trace clock_reads files].
  now rewrite Hsync.
Qed.

Lemma retry_loop_step attempt rest audio w :
  Legacy.retry_loop env (attempt :: rest) audio w
  = match long_running_attempt env Legacy.config audio w with
    | (Ok response, w1) => (Ok (Legacy.Break response), w1)
    | (Raise e, w1) =>
        if (attempt <? 2)%Z then Legacy.retry_loop env rest audio w1
        else (Ok (Legacy.Return (ReturnTuple [("error", JString (str_exn e))] 500)), w1)
    end.
Proof.
  cbn [Legacy.retry_loop].
  unfold try_except, long_running_attempt, bind, long_running_recognize,
    operation_result, ret.
  destruct (long_running_outcome env (trace w) Legacy.config audio) as [op|e];
    [|destruct (attempt <? 2)%Z; reflexivity].
  destruct (operation_outcome op 90); [reflexivity|].
  destruct (attempt <? 2)%Z; reflexivity.
Qed.

(** The loop never raises, starts at most one long-running operation per
    attempt, and issues no other kind of recognition or synthesis call. *)
Lemma retry_loop_calls attempts : forall audio w x w',
  Legacy.retry_loop env attempts audio w = (x, w') ->
  (exists exit, x = Ok exit)
  /\ clock_reads w' = clock_reads w
  /\ files w' = files w
  /\ exists suffix,
       trace w' = trace w ++ suffix
       /\ (count_calls is_long_running suffix <= length attempts)%nat
       /\ count_calls is_recognize suffix = 0%nat
       /\ count_calls is_synthesize suffix = 0%nat.
Proof.
  induction attempts as [|attempt rest IH]; intros audio w x w'.
  - intros [= <- <-]. split; [eauto|]. split; [reflexivity|]. split; [reflexivity|].
    exists []. rewrite app_nil_r. cbn. auto.
  - rewrite retry_loop_step.
    destruct (long_running_attempt env Legacy.config audio w) as [r w1] eqn:Hattempt.
    destruct (long_running_attempt_calls _ _ _ _ _ Hattempt) as (Hclock & Hfiles & Htrace).
    assert (Hone : exists calls,
               trace w1 = trace w ++ calls
               /\ count_calls is_long_running calls = 1%nat
               /\ count_calls is_recognize calls = 0%nat
               /\ count_calls is_synthesize calls = 0%nat).
    { destruct Htrace as [-> | ->]; eexists; (split; [reflexivity|]); cbn; auto. }
    destruct Hone as (calls & Hcalls & Hlong & Hrec & Hsyn).
    assert (Hdone : forall exit : Legacy.loop_exit,
               (exists exit', Ok exit = Ok exit')
               /\ clock_reads w1 = clock_reads w
               /\ files w1 = files w
               /\ exists suffix,
                    trace w1 = trace w ++ suffix
                    /\ (count_calls is_long_running suffix <= length (attempt :: rest))%nat
                    /\ count_calls is_recognize suffix = 0%nat
                    /\ count_calls is_synthesize suffix = 0%nat).
    { intros exit. split; [eauto|]. split; [assumption|]. split; [assumption|].
      exists calls. cbn [length]. repeat split; try assumption. lia. }
    destruct r as [response|e].
    + intros [= <- <-]. apply Hdone.
    + destruct (attempt <? 2)%Z.
      * intros Hrest. destruct (IH _ _ _ _ Hrest)
          as (Hok & Hclock' & Hfiles' & suffix & Hsuffix & Hlong' & Hrec' & Hsyn').
        split; [assumption|]. split; [congruence|]. split; [congruence|].
        exists (calls ++ suffix). rewrite Hsuffix, Hcalls, <- app_assoc.
        split; [reflexivity|].
        unfold count_calls in *. rewrite !List.filter_app, !length_app.
        cbn [length]. lia.
      * intros [= <- <-]. apply Hdone.
Qed.

Lemma generate_text_missing w :
  files w !! "static/output.wav" = None ->
  Legacy.generate_text env w
  = (Ok (ReturnTuple [("error", JString "Audio file not found.")] 404), w).
Proof.
  intros Hmissing.
  unfold Legacy.generate_text, try_except, bind, path_exists.
  now rewrite Hmissing.
Qed.

Lemma generate_text_client_failure w audio e :
  files w !! "static/output.wav" = Some audio ->
  stt_client_outcome env (trace w) = Raise e ->
  Legacy.generate_text env w
  = (Ok (ReturnTuple [("error", JString (str_exn e))] 500), issue SpeechClient_init w).
Proof.
  intros Hfile Hclient.
  unfold Legacy.generate_text, try_except, bind, path_exists, read_file, SpeechClient.
  rewrite Hfile. cbn [negb]. rewrite Hfile. now rewrite Hclient.
Qed.

Lemma generate_text_recognition w audio :
  files w !! "static/output.wav" = Some audio ->
  stt_client_outcome env (trace w) = Ok tt ->
  Legacy.generate_text env w
  = match Legacy.retry_loop env (range 3) audio (issue SpeechClient_init w) with
    | (Ok (Legacy.Break response), w') =>
        (Ok (ReturnTuple
               [("transcript",
                 JString (str_join (top_alternatives (results response))))] 200), w')
    | (Ok (Legacy.Return r), w') => (Ok r, w')
    | (Ok Legacy.Exhausted, w') =>
        (Ok (ReturnTuple [("error", JString (str_exn UnboundLocalError))] 500), w')
    | (Raise e, w') => (Ok (ReturnTuple [("error", JString (str_exn e))] 500), w')
    end.
Proof.
  intros Hfile Hclient.
  unfold Legacy.generate_text, try_except, bind, path_exists, read_file, SpeechClient.
  rewrite Hfile. cbn [negb]. rewrite Hfile, Hclient.
  destruct (Legacy.retry_loop env (range 3) audio (issue SpeechClient_init w))
    as [[[response|r|]|e] w']; try reflexivity.
  unfold lift. now rewrite extract_transcript_total.
Qed.

Lemma app_synthesis_returns request w response :
  text request <> "" ->
  synthesize_outcome env (trace w) (App.synthesis_request_of (text request)) = Ok response ->
  App.text_to_speech env request w
  = let name := output_name (int_of_float (wall_clock env (clock_reads w))) in
    let w1 := tick (issue (Synthesize (App.synthesis_request_of (text request))) w) in
    match file_write_outcome env (files w) name (audio_content response) with
    | Written =>
        (Ok (ReturnDict [("audio_path", JString ("/" +:+ name));
                         ("text", JString (text request))]),
         store name (audio_content response) w1)
    | OpenRaises e => (Raise (HTTPException 500 (str_exn e)), w1)
    | WriteRaises kept e =>
        (Raise (HTTPException 500 (str_exn e)),
         store name (take kept (audio_content response)) w1)
    end.
Proof.
  intros Htext Hsynth.
  unfold App.text_to_speech, try_except, bind, synthesize_speech, time_time, write_file.
  rewrite (truthy_str_true _ Htext). cbn [negb]. rewrite Hsynth.
  cbn zeta. cbn [tick issue files]. unfold output_name.
  destruct (file_write_outcome env _ _ _); reflexivity.
Qed.

Lemma app_synthesis_failure request w e :
  text request <> "" ->
  synthesize_outcome env (trace w) (App.synthesis_request_of (text request)) = Raise e ->
  App.text_to_speech env request w
  = (Raise (HTTPException 500 (str_exn e)),
     issue (Synthesize (App.synthesis_request_of (text request))) w).
Proof.
  intros Htext Hsynth.
  unfold App.text_to_speech, try_except, bind, synthesize_speech.
  rewrite (truthy_str_true _ Htext). cbn [negb]. now rewrite Hsynth.
Qed.

Lemma main_synthesis_success request w response :
  text request <> "" ->
  synthesize_outcome env (trace w) (Main.synthesis_request_of (text request)) = Ok response ->
  Main.text_to_speech env request w
  = (Ok (StreamingResponse (audio_stream_generator (audio_content response))
           "audio/wav"
           [("Content-Disposition", "inline; filename=synthesized_audio.wav")]),
     issue (Synthesize (Main.synthesis_request_of (text request))) w).
Proof.
  intros Htext Hsynth.
  unfold Main.text_to_speech, try_except, bind, synthesize_speech.
  rewrite (truthy_str_true _ Htext). cbn [negb]. now rewrite Hsynth.
Qed.

Lemma main_synthesis_failure request w e :
  text request <> "" ->
  synthesize_outcome env (trace w) (Main.synthesis_request_of (text request)) = Raise e ->
  Main.text_to_speech env request w
  = (Raise (HTTPException 500 ("Failed to synthesize speech: " +:+ str_exn e)),
     issue (Synthesize (Main.synthesis_request_of (text request))) w).
Proof.
  intros Htext Hsynth.
  unfold Main.text_to_speech, try_except, bind, synthesize_speech.
  rewrite (truthy_str_true _ Htext). cbn [negb]. now rewrite Hsynth.
Qed.

Lemma legacy_synthesis_returns request w response :
  requested_text request <> "" ->
  tts_client_outcome env (trace w) = Ok tt ->
  synthesize_outcome env (trace w ++ [TextToSpeechClient_init])
    (Legacy.synthesis_request_of (requested_text request)) = Ok response ->
  Legacy.generate_audio env request w
  = let w1 := issue (Synthesize (Legacy.synthesis_request_of (requested_text request)))
                (issue TextToSpeechClient_init w) in
    match makedirs_outcome env (files w) "static" with
    | Raise e => (Ok (ReturnTuple [("error", JString (str_exn e))] 500), w1)
    | Ok _ =>
        match file_write_outcome env (files w) "static/output.wav"
                (audio_content response) with
        | Written =>
            (Ok (ReturnTuple
                   [("audio_path", JString "/static/output.wav");
                    ("text", JString (requested_text request))] 200),
             store "static/output.wav" (audio_content response) w1)
        | OpenRaises e => (Ok (ReturnTuple [("error", JString (str_exn e))] 500), w1)
        | WriteRaises kept e =>
            (Ok (ReturnTuple [("error", JString (str_exn e))] 500),
             store "static/output.wav" (take kept (audio_content response)) w1)
        end
    end.
Proof.
  intros Htext Hclient Hsynth.
  unfold Legacy.generate_audio, try_except, bind, TextToSpeechClient,
    synthesize_speech, makedirs, write_file.
  fold (requested_text request).
  rewrite (truthy_str_true _ Htext). cbn [negb]. rewrite Hclient.
  cbn [issue trace]. rewrite Hsynth. cbn zeta. cbn [issue files].
  destruct (makedirs_outcome env _ _); [|reflexivity].
  destruct (file_write_outcome env _ _ _); reflexivity.
Qed.

Lemma legacy_synthesis_failure request w e :
  requested_text request <> "" ->
  tts_client_outcome env (trace w) = Ok tt ->
  synthesize_outcome env (trace w ++ [TextToSpeechClient_init])
    (Legacy.synthesis_request_of (requested_text request)) = Raise e ->
  Legacy.generate_audio env request w
  = (Ok (ReturnTuple [("error", JString (str_exn e))] 500),
     issue (Synthesize (Legacy.synthesis_request_of (requested_text request)))
       (issue TextToSpeechClient_init w)).
Proof.
  intros Htext Hclient Hsynth.
  unfold Legacy.generate_audio, try_except, bind, TextToSpeechClient, synthesize_speech.
  fold (requested_text request).
  rewrite (truthy_str_true _ Htext). cbn [negb]. rewrite Hclient.
  cbn [issue trace]. now rewrite Hsynth.
Qed.

Lemma app_empty_upload file w :
  upload_content file = [] ->
  App.speech_to_text env file w
  = (Raise (HTTPException 500 (http_exception_str 400 "Empty audio file")), tick w).
Proof.
  intros Hempty. unfold App.speech_to_text, try_except, bind, time_time.
  now rewrite Hempty.
Qed.

Lemma main_empty_upload file w :
  upload_content file = [] ->
  Main.speech_to_text env file w
  = (Raise (HTTPException 400 "Empty audio file"), tick w).
Proof.
  intros Hempty. unfold Main.speech_to_text, bind, time_time.
  now rewrite Hempty.
Qed.

Lemma empty_text_app request w :
  text request = "" ->
  App.text_to_speech env request w
  = (Raise (HTTPException 500
              (http_exception_str 400 "Please provide text to convert")), w).
Proof.
  intros Hempty. unfold App.text_to_speech, try_except. now rewrite Hempty.
Qed.

Lemma empty_text_main request w :
  text request = "" ->
  Main.text_to_speech env request w
  = (Raise (HTTPException 500
              ("Failed to synthesize speech: "
               +:+ http_exception_str 400 "Please provide text to convert")), w).
Proof.
  intros Hempty. unfold Main.text_to_speech, try_except. now rewrite Hempty.
Qed.

Lemma empty_text_legacy request w :
  requested_text request = "" ->
  Legacy.generate_audio env request w
  = (Ok (ReturnTuple [("error", JString "Please provide some text.")] 400), w).
Proof.
  intros Hempty. unfold Legacy.generate_audio, try_except.
  fold (requested_text request). now rewrite Hempty.
Qed.

Lemma legacy_client_failure request w e :
  requested_text request <> "" ->
  tts_client_outcome env (trace w) = Raise e ->
  Legacy.generate_audio env request w
  = (Ok (ReturnTuple [("error", JString (str_exn e))] 500),
     issue TextToSpeechClient_init w).
Proof.
  intros Htext Hclient.
  unfold Legacy.generate_audio, try_except, bind, TextToSpeechClient.
  fold (requested_text request).
  rewrite (truthy_str_true _ Htext). cbn [negb]. now rewrite Hclient.
Qed.

(** A 200 of file-mode synthesis means the synthesize call returned and the
    file was written. *)
Lemma app_answered_200 request w :
  http_status (fst (App.text_to_speech env request w)) = Some 200 ->
  text request <> ""
  /\ exists response,
       synthesize_outcome env (trace w) (App.synthesis_request_of (text request))
       = Ok response
       /\ file_write_outcome env (files w)
            (output_name (int_of_float (wall_clock env (clock_reads w))))
            (audio_content response) = Written.
Proof.
  intros Hstatus.
  destruct (String.string_dec (text request) "") as [Hempty|Htext].
  { rewrite (empty_text_app request w Hempty) in Hstatus. discriminate. }
  split; [assumption|].
  destruct (synthesize_outcome env (trace w) (App.synthesis_request_of (text request)))
    as [response|e] eqn:Hsynth.
  2:{ rewrite (app_synthesis_failure request w e Htext Hsynth) in Hstatus. discriminate. }
  exists response. split; [reflexivity|].
  rewrite (app_synthesis_returns request w response Htext Hsynth) in Hstatus.
  cbn zeta in Hstatus.
  destruct (file_write_outcome env _ _ _); [reflexivity | discriminate ..].
Qed.

Lemma app_synthesis_written request w response :
  text request <> "" ->
  synthesize_outcome env (trace w) (App.synthesis_request_of (text request)) = Ok response ->
  file_write_outcome env (files w)
    (output_name (int_of_float (wall_clock env (clock_reads w))))
    (audio_content response) = Written ->
  App.text_to_speech env request w
  = (Ok (ReturnDict
           [("audio_path",
             JString ("/" +:+ output_name (int_of_float (wall_clock env (clock_reads w)))));
            ("text", JString (text request))]),
     store (output_name (int_of_float (wall_clock env (clock_reads w))))
       (audio_content response)
       (tick (issue (Synthesize (App.synthesis_request_of (text request))) w))).
Proof.
  intros Htext Hsynth Hwrite.
  rewrite (app_synthesis_returns request w response Htext Hsynth).
  cbn zeta. now rewrite Hwrite.
Qed.

Lemma legacy_answered_200 request w :
  http_status (fst (Legacy.generate_audio env request w)) = Some 200 ->
  requested_text request <> ""
  /\ tts_client_outcome env (trace w) = Ok tt
  /\ exists response,
       synthesize_outcome env (trace w ++ [TextToSpeechClient_init])
         (Legacy.synthesis_request_of (requested_text request)) = Ok response
       /\ Legacy.generate_audio env request w
          = (Ok (ReturnTuple
                   [("audio_path", JString "/static/output.wav");
                    ("text", JString (requested_text request))] 200),
             store "static/output.wav" (audio_content response)
               (issue (Synthesize (Legacy.synthesis_request_of (requested_text request)))
                  (issue TextToSpeechClient_init w))).
Proof.
  intros Hstatus.
  destruct (String.string_dec (requested_text request) "") as [Hempty|Htext].
  { rewrite (empty_text_legacy request w Hempty) in Hstatus. discriminate. }
  split; [assumption|].
  destruct (tts_client_outcome env (trace w)) as [[]|e] eqn:Hclient.
  2:{ rewrite (legacy_client_failure request w e Htext Hclient) in Hstatus.
      discriminate. }
  split; [reflexivity|].
  destruct (synthesize_outcome env (trace w ++ [TextToSpeechClient_init])
              (Legacy.synthesis_request_of (requested_text request)))
    as [response|e] eqn:Hsynth.
  2:{ rewrite (legacy_synthesis_failure request w e Htext Hclient Hsynth) in Hstatus.
      discriminate. }
  exists response. split; [reflexivity|].
  rewrite (legacy_synthesis_returns request w response Htext Hclient Hsynth) in *.
  cbn zeta in *.
  destruct (makedirs_outcome env _ _); [|discriminate].
  destruct (file_write_outcome env _ _ _); [reflexivity | discriminate ..].
Qed.

(** Whatever the vendor does, each handler returns or raises [HTTPException]. *)
Lemma try_except_handled (m : M handler_return) (answer : exn -> M handler_return) w :
  (forall e w1, handled (fst (answer e w1))) ->
  handled (fst (try_except m answer w)).
Proof.
  intros Hanswer. unfold try_except.
  destruct (m w) as [[r|e] w1]; [exact I | apply Hanswer].
Qed.

Lemma handlers_handled :
  (forall request w, handled (fst (App.text_to_speech env request w)))
  /\ (forall file w, handled (fst (App.speech_to_text env file w)))
  /\ (forall request w, handled (fst (Main.text_to_speech env request w)))
  /\ (forall file w, handled (fst (Main.speech_to_text env file w)))
  /\ (forall request w, handled (fst (Legacy.generate_audio env request w)))
  /\ (forall w, handled (fst (Legacy.generate_text env w))).
Proof.
  repeat split; intros; try (apply try_except_handled; intros; exact I).
  unfold Main.speech_to_text, bind, time_time.
  destruct (negb (truthy_list (upload_content file))); [exact I|].
  apply try_except_handled; intros; exact I.
Qed.

End Runs.

(** ** Empty input *)

(** C1. What the three synthesis handlers answer to an empty text: app.py and
    main.py raise their 400 inside the [try] whose [except Exception] turns
    it into a 500, so the answer is no client error; test.py returns its 400.
    No handler touches the world, so no vendor call is issued. *)
Theorem empty_text_responses `{PyRuntime} (env : environment) (w : world) :
  App.text_to_speech env {| text := "" |} w
  = (Raise (HTTPException 500
              (http_exception_str 400 "Please provide text to convert")), w)
  /\ Main.text_to_speech env {| text := "" |} w
     = (Raise (HTTPException 500
                 ("Failed to synthesize speech: "
                  +:+ http_exception_str 400 "Please provide text to convert")), w)
  /\ Legacy.generate_audio env {| method := POST; form_text_input := Some "" |} w
     = (Ok (ReturnTuple [("error", JString "Please provide some text.")] 400), w)
  /\ ~ client_error (http_status (fst (App.text_to_speech env {| text := "" |} w)))
  /\ ~ client_error (http_status (fst (Main.text_to_speech env {| text := "" |} w)))
  /\ client_error
       (http_status
          (fst (Legacy.generate_audio env
                  {| method := POST; form_text_input := Some "" |} w))).
Proof.
  split; [reflexivity|]. split; [reflexivity|]. split; [reflexivity|].
  split; [|split].
  - intros (s & [= <-] & Hrange). lia.
  - intros (s & [= <-] & Hrange). lia.
  - exists 400. split; [reflexivity | lia].
Qed.

(** C2. What the two transcription handlers answer to an empty upload: app.py
    raises its 400 inside the [try] whose [except Exception] turns it into a
    500, so the answer is no client error; main.py raises it outside and
    answers 400. Both have read the clock once and issued no vendor call. *)
Theorem empty_audio_responses `{PyRuntime} (env : environment)
    (name : string) (w : world) :
  App.speech_to_text env {| filename := name; upload_content := [] |} w
  = (Raise (HTTPException 500 (http_exception_str 400 "Empty audio file")), tick w)
  /\ Main.speech_to_text env {| filename := name; upload_content := [] |} w
     = (Raise (HTTPException 400 "Empty audio file"), tick w)
  /\ trace (tick w) = trace w
  /\ ~ client_error
         (http_status
            (fst (App.speech_to_text env {| filename := name; upload_content := [] |} w)))
  /\ client_error
       (http_status
          (fst (Main.speech_to_text env {| filename := name; upload_content := [] |} w))).
Proof.
  split; [reflexivity|]. split; [reflexivity|]. split; [reflexivity|]. split.
  - intros (s & [= <-] & Hrange). lia.
  - exists 400. split; [reflexivity | lia].
Qed.

(** ** Failure of the recognition call *)

Lemma new_calls_refl (w : world) : new_calls w w = [].
Proof. unfold new_calls. apply drop_all. Qed.

(** C3. When the synchronous call fails, app.py starts the long-running path
    exactly once (and calls [recognize] no second time), and a failure of
    that path is answered with a 500 carrying its message; main.py answers
    with a 500 and issues no call besides the failed one; test.py starts at
    most three long-running operations, and when all three attempts fail it
    answers with a 500 carrying the last error. *)
Theorem recognition_failure_policy `{PyRuntime} (env : environment) :
  (forall file w e r w',
      upload_content file <> [] ->
      recognize_outcome env (trace w) App.config (upload_content file) None = Raise e ->
      App.speech_to_text env file w = (r, w') ->
      count_calls is_long_running (new_calls w w') = 1%nat
      /\ count_calls is_recognize (new_calls w w') = 1%nat
      /\ forall e2 w2,
           long_running_attempt env App.config (upload_content file)
             (issue (Recognize App.config (upload_content file) None) (tick w))
           = (Raise e2, w2) ->
           r = Raise (HTTPException 500 (str_exn e2))
           /\ server_error (http_status r))
  /\ (forall file w e r w',
         upload_content file <> [] ->
         recognize_outcome env (trace w) Main.config (upload_content file) (Some 10)
         = Raise e ->
         Main.speech_to_text env file w = (r, w') ->
         r = Raise (HTTPException 500 (Main.failure_detail e))
         /\ server_error (http_status r)
         /\ new_calls w w' = [Recognize Main.config (upload_content file) (Some 10)])
  /\ (forall w r w',
         Legacy.generate_text env w = (r, w') ->
         (count_calls is_long_running (new_calls w w') <= 3)%nat
         /\ count_calls is_recognize (new_calls w w') = 0%nat
         /\ forall audio e1 e2 e3 w1 w2 w3,
              files w !! "static/output.wav" = Some audio ->
              stt_client_outcome env (trace w) = Ok tt ->
              long_running_attempt env Legacy.config audio (issue SpeechClient_init w)
              = (Raise e1, w1) ->
              long_running_attempt env Legacy.config audio w1 = (Raise e2, w2) ->
              long_running_attempt env Legacy.config audio w2 = (Raise e3, w3) ->
              r = Ok (ReturnTuple [("error", JString (str_exn e3))] 500)
              /\ server_error (http_status r)
              /\ w' = w3).
Proof.
  split; [|split].
  - intros file w e r w' Haudio Hsync.
    rewrite (app_sync_failure env file w e Haudio Hsync).
    destruct (long_running_attempt env App.config (upload_content file) _)
      as [r2 w2] eqn:Hlong.
    destruct (long_running_attempt_calls _ _ _ _ _ _ Hlong) as (_ & _ & Htrace).
    cbn [issue tick trace] in Htrace.
    assert (Hcount : forall w3, trace w3 = trace w2 ->
               count_calls is_long_running (new_calls w w3) = 1%nat
               /\ count_calls is_recognize (new_calls w w3) = 1%nat).
    { intros w3 E.
      destruct Htrace as [Ht | Ht]; rewrite Ht, <- app_assoc in E;
        rewrite (new_calls_app _ _ _ E); split; reflexivity. }
    destruct r2 as [response|e2]; intros [= <- <-].
    + destruct (Hcount (tick w2) eq_refl). repeat split; try assumption.
      all: discriminate.
    + destruct (Hcount w2 eq_refl) as [Hone Hrec].
      split; [assumption|]. split; [assumption|].
      intros e3 w3 [= <- <-]. split; [reflexivity|].
      exists 500. cbn. split; [reflexivity | lia].
  - intros file w e r w' Haudio Hsync.
    rewrite (main_sync_failure env file w e Haudio Hsync).
    intros [= <- <-]. split; [reflexivity|]. split.
    + exists 500. cbn. split; [reflexivity | lia].
    + now apply new_calls_app.
  - intros w r w' Hrun.
    destruct (files w !! "static/output.wav") as [audio|] eqn:Hfile.
    2:{ rewrite (generate_text_missing env w Hfile) in Hrun.
        injection Hrun as <- <-. rewrite new_calls_refl.
        split; [cbn; lia|]. split; [reflexivity|]. intros; discriminate. }
    destruct (stt_client_outcome env (trace w)) as [[]|e] eqn:Hclient.
    2:{ rewrite (generate_text_client_failure env w audio e Hfile Hclient) in Hrun.
        injection Hrun as <- <-.
        rewrite (new_calls_app w (issue SpeechClient_init w) [SpeechClient_init] eq_refl).
        split; [cbn; lia|]. split; [reflexivity|]. intros; discriminate. }
    rewrite (generate_text_recognition env w audio Hfile Hclient) in Hrun.
    destruct (Legacy.retry_loop env (range 3) audio (issue SpeechClient_init w))
      as [x wl] eqn:Hloop.
    destruct (retry_loop_calls env _ _ _ _ _ Hloop)
      as ([exit ->] & _ & _ & suffix & Htrace & Hlong & Hrec & _).
    cbn [issue trace] in Htrace. rewrite <- app_assoc in Htrace.
    assert (Hw' : w' = wl) by (destruct exit; congruence).
    subst w'. rewrite (new_calls_app _ _ _ Htrace).
    split; [exact Hlong|]. split; [exact Hrec|].
    intros audio' e1 e2 e3 w1 w2 w3 [= <-] _ H1 H2 H3.
    change (range 3) with [0; 1; 2] in Hloop.
    rewrite retry_loop_step, H1 in Hloop. cbn [Z.ltb Z.compare] in Hloop.
    rewrite retry_loop_step, H2 in Hloop. cbn [Z.ltb Z.compare Pos.compare Pos.compare_cont] in Hloop.
    rewrite retry_loop_step, H3 in Hloop. cbn in Hloop.
    injection Hloop as <- <-. injection Hrun as <-.
    split; [reflexivity|]. split; [|reflexivity].
    exists 500. cbn. split; [reflexivity | lia].
Qed.

Lemma recognition_failure_policy_witness :
  (count_calls is_long_running
     (new_calls (initial_world ∅)
        (snd (App.speech_to_text env_all_down clip (initial_world ∅)))) = 1%nat
   /\ fst (App.speech_to_text env_all_down clip (initial_world ∅))
      = Raise (HTTPException 500 "deadline exceeded after call 1"))
  /\ (fst (Main.speech_to_text env_all_down clip (initial_world ∅))
      = Raise (HTTPException 500
                 (Main.failure_detail (H := rational_runtime)
                    (VendorError "503 unavailable")))
      /\ new_calls (initial_world ∅)
           (snd (Main.speech_to_text env_all_down clip (initial_world ∅)))
         = [Recognize Main.config riff (Some 10)])
  /\ (count_calls is_long_running
        (new_calls (initial_world disk_with_output)
           (snd (Legacy.generate_text env_all_down (initial_world disk_with_output))))
      <= 3)%nat
  /\ fst (Legacy.generate_text env_all_down (initial_world disk_with_output))
     = Ok (ReturnTuple [("error", JString "deadline exceeded after call 3")] 500).
Proof.
  destruct (recognition_failure_policy env_all_down) as (Happ & Hmain & Hlegacy).
  split; [|split].
  - destruct (Happ clip (initial_world ∅) (VendorError "503 unavailable") _ _
                ltac:(discriminate) eq_refl (surjective_pairing _))
      as (Hone & _ & Hfail).
    split; [exact Hone|].
    edestruct Hfail as [Hr _]; [vm_compute; reflexivity | exact Hr].
  - destruct (Hmain clip (initial_world ∅) (VendorError "503 unavailable") _ _
                ltac:(discriminate) eq_refl (surjective_pairing _))
      as (Hr & _ & Hcalls).
    split; [exact Hr | exact Hcalls].
  - destruct (Hlegacy (initial_world disk_with_output) _ _ (surjective_pairing _))
      as (Hbound & _ & Hfail).
    split; [exact Hbound|].
    edestruct (Hfail riff) as [Hr _]; [vm_compute; reflexivity .. | exact Hr].
Defined.

(** ** Streaming synthesis *)

(** C7. A successful synthesis request of main.py answers with a
    [StreamingResponse] over the chunks of [audio_stream_generator] applied to
    the vendor's audio: read 4096 bytes at a time, so they concatenate to the
    audio, none is longer than 4096 bytes and all before the last are exactly
    4096 bytes; the media type is audio/wav, a Content-Disposition header is
    set, and the files on disk are left as they were. *)
Theorem streaming_synthesis `{PyRuntime} (env : environment)
    (request : TextToSpeechRequest) (w : world) (response : synthesis_response) :
  text request <> "" ->
  synthesize_outcome env (trace w) (Main.synthesis_request_of (text request))
  = Ok response ->
  exists chunks w',
    Main.text_to_speech env request w
    = (Ok (StreamingResponse chunks "audio/wav"
             [("Content-Disposition", "inline; filename=synthesized_audio.wav")]), w')
    /\ chunks = audio_stream_generator (audio_content response)
    /\ concat chunks = audio_content response
    /\ Forall (fun chunk => (length chunk <= 4096)%nat) chunks
    /\ Forall (fun chunk => length chunk = 4096%nat) (removelast chunks)
    /\ files w' = files w.
Proof.
  intros Htext Hsynth.
  destruct (audio_stream_generator_spec (audio_content response))
    as (Hcat & _ & Hfull & Hmax).
  eexists _, _. split; [apply (main_synthesis_success env request w response Htext Hsynth)|].
  split; [reflexivity|]. split; [exact Hcat|]. split; [exact Hmax|].
  split; [exact Hfull | reflexivity].
Qed.

Lemma streaming_synthesis_witness :
  exists chunks w',
    Main.text_to_speech env_hello {| text := "Hello" |} (initial_world disk_with_output)
    = (Ok (StreamingResponse chunks "audio/wav"
             [("Content-Disposition", "inline; filename=synthesized_audio.wav")]), w')
    /\ chunks = audio_stream_generator riff
    /\ concat chunks = riff
    /\ Forall (fun chunk => (length chunk <= 4096)%nat) chunks
    /\ Forall (fun chunk => length chunk = 4096%nat) (removelast chunks)
    /\ files w' = disk_with_output.
Proof.
  apply (streaming_synthesis env_hello {| text := "Hello" |}
           (initial_world disk_with_output) {| audio_content := riff |}).
  - discriminate.
  - reflexivity.
Defined.

(** ** File-mode synthesis *)

Lemma string_length_append (s1 s2 : string) :
  String.length (s1 +:+ s2) = (String.length s1 + String.length s2)%nat.
Proof.
  induction s1 as [|c s1 IH]; [reflexivity|].
  change (S (String.length (s1 +:+ s2)) = S (String.length s1 + String.length s2)).
  now rewrite IH.
Qed.

Lemma string_append_cancel_r (suffix : string) : forall s1 s2,
  s1 +:+ suffix = s2 +:+ suffix -> s1 = s2.
Proof.
  induction s1 as [|c1 s1 IH]; intros [|c2 s2] E.
  - reflexivity.
  - apply (f_equal String.length) in E.
    rewrite !string_length_append in E. cbn [String.length] in E. lia.
  - apply (f_equal String.length) in E.
    rewrite !string_length_append in E. cbn [String.length] in E. lia.
  - change (String c1 (s1 +:+ suffix) = String c2 (s2 +:+ suffix)) in E.
    injection E as -> E. f_equal. now apply IH.
Qed.

Lemma str_int_inj (a b : Z) : str_int a = str_int b -> a = b.
Proof.
  unfold str_int. intros E.
  apply (f_equal NilEmpty.int_of_string) in E.
  rewrite !NilEmpty.isi in E. injection E as E.
  now apply DecimalZ.to_int_inj.
Qed.

Lemma output_name_inj (t1 t2 : Z) : output_name t1 = output_name t2 -> t1 = t2.
Proof.
  unfold output_name. intros E.
  apply (inj (String.app "static/output_")) in E.
  apply string_append_cancel_r in E.
  now apply str_int_inj.
Qed.

(** C6, as amended. A file-mode synthesis request that succeeds, that is, one
    answered 200, has written the audio the vendor returned to a file under
    [static/] (in test.py always [static/output.wav]), and its response holds
    the path of exactly that file behind a slash, together with the input
    text. *)
Theorem file_mode_synthesis `{PyRuntime} (env : environment) :
  (forall request w,
      http_status (fst (App.text_to_speech env request w)) = Some 200 ->
      exists name response,
        fst (App.text_to_speech env request w)
        = Ok (ReturnDict [("audio_path", JString ("/" +:+ name));
                          ("text", JString (text request))])
        /\ (exists base, name = "static/" +:+ base)
        /\ synthesize_outcome env (trace w) (App.synthesis_request_of (text request))
           = Ok response
        /\ files (snd (App.text_to_speech env request w))
           = <[name := audio_content response]> (files w))
  /\ (forall request w,
         http_status (fst (Legacy.generate_audio env request w)) = Some 200 ->
         exists response,
           fst (Legacy.generate_audio env request w)
           = Ok (ReturnTuple [("audio_path", JString ("/" +:+ "static/output.wav"));
                              ("text", JString (requested_text request))] 200)
           /\ synthesize_outcome env (trace w ++ [TextToSpeechClient_init])
                (Legacy.synthesis_request_of (requested_text request)) = Ok response
           /\ files (snd (Legacy.generate_audio env request w))
              = <["static/output.wav" := audio_content response]> (files w)).
Proof.
  split.
  - intros request w Hstatus.
    destruct (app_answered_200 env request w Hstatus)
      as (Htext & response & Hsynth & Hwrite).
    exists (output_name (int_of_float (wall_clock env (clock_reads w)))), response.
    rewrite (app_synthesis_written env request w response Htext Hsynth Hwrite).
    split; [reflexivity|]. split; [eexists; reflexivity|].
    split; [assumption | reflexivity].
  - intros request w Hstatus.
    destruct (legacy_answered_200 env request w Hstatus)
      as (_ & _ & response & Hsynth & ->).
    exists response. split; [reflexivity|]. split; [assumption | reflexivity].
Qed.

Lemma file_mode_synthesis_witness :
  (exists name response,
      fst (App.text_to_speech env_hello {| text := "Hello" |} (initial_world ∅))
      = Ok (ReturnDict [("audio_path", JString ("/" +:+ name));
                        ("text", JString "Hello")])
      /\ (exists base, name = "static/" +:+ base)
      /\ Ok {| audio_content := riff |} = Ok response
      /\ files (snd (App.text_to_speech env_hello {| text := "Hello" |} (initial_world ∅)))
         = {[name := audio_content response]})
  /\ exists response,
       fst (Legacy.generate_audio env_hello {| method := GET; form_text_input := None |}
              (initial_world ∅))
       = Ok (ReturnTuple [("audio_path", JString "/static/output.wav");
                          ("text", JString "Hello, how are you Akshay?")] 200)
       /\ Ok {| audio_content := one_byte |} = Ok response
       /\ files (snd (Legacy.generate_audio env_hello
                        {| method := GET; form_text_input := None |} (initial_world ∅)))
          = {["static/output.wav" := audio_content response]}.
Proof.
  destruct (file_mode_synthesis env_hello) as (Happ & Hlegacy).
  split.
  - apply (Happ {| text := "Hello" |} (initial_world ∅)). reflexivity.
  - apply (Hlegacy {| method := GET; form_text_input := None |} (initial_world ∅)).
    reflexivity.
Defined.

(** test.py gives every request the same file: two requests answered 200
    are both pointed to [static/output.wav], and the second audio has
    replaced the first. *)
Lemma file_name_not_unique :
  let first :=
    Legacy.generate_audio env_two_audios {| method := POST; form_text_input := Some "one" |}
      (initial_world ∅) in
  let second :=
    Legacy.generate_audio env_two_audios {| method := POST; form_text_input := Some "two" |}
      (snd first) in
  http_status (fst first) = Some 200
  /\ http_status (fst second) = Some 200
  /\ (json_body (fst first) ≫= json_get "audio_path")
     = Some (JString "/static/output.wav")
  /\ (json_body (fst second) ≫= json_get "audio_path")
     = Some (JString "/static/output.wav")
  /\ files (snd first) = {["static/output.wav" := riff]}
  /\ files (snd second) = {["static/output.wav" := one_byte]}.
Proof.
  cbv zeta. repeat split; vm_compute; reflexivity.
Qed.

(** app.py means its file name to be unique ([# Generate a unique filename
    using timestamp]) and takes it from [int(time.time())]: two requests
    answered 200 within one second (clock reads 1700000000.2 and
    1700000000.5) get the same name, and the second audio replaces the first. *)
Lemma app_same_second_collision :
  let first := App.text_to_speech env_hello {| text := "one" |} (initial_world ∅) in
  let second := App.text_to_speech env_hello {| text := "two" |} (snd first) in
  http_status (fst first) = Some 200
  /\ http_status (fst second) = Some 200
  /\ (json_body (fst first) ≫= json_get "audio_path")
     = Some (JString "/static/output_1700000000.wav")
  /\ (json_body (fst second) ≫= json_get "audio_path")
     = Some (JString "/static/output_1700000000.wav")
  /\ files (snd first) = {["static/output_1700000000.wav" := riff]}
  /\ files (snd second) = {["static/output_1700000000.wav" := one_byte]}.
Proof.
  cbv zeta. repeat split; vm_compute; reflexivity.
Qed.

(** ** The transcript of a successful recognition *)

Lemma string_append_empty_r (s : string) : s +:+ "" = s.
Proof.
  induction s as [|c s IH]; [reflexivity|].
  change (String c (s +:+ "") = String c s). now rewrite IH.
Qed.

(** Joining puts the parts side by side, in order, with nothing between. *)
Lemma str_join_cons (part : string) (parts : list string) :
  str_join (part :: parts) = part +:+ str_join parts.
Proof.
  unfold str_join. destruct parts as [|next parts].
  - cbn. now rewrite string_append_empty_r.
  - reflexivity.
Qed.

Lemma transcript_reply_heard `{PyRuntime} (heard : string) (start_time end_time : float) :
  heard <> "" ->
  transcript_reply heard start_time end_time
  = ReturnDict [("transcript", JString heard);
                ("processing_time_seconds",
                 JNumber (round2 (float_sub end_time start_time)))].
Proof. intros Hheard. unfold transcript_reply. now rewrite truthy_str_true. Qed.

Lemma transcript_reply_silence `{PyRuntime} (heard : string) (start_time end_time : float) :
  heard = "" ->
  transcript_reply heard start_time end_time
  = ReturnDict [("transcript", JString "No speech detected");
                ("processing_time_seconds",
                 JNumber (round2 (float_sub end_time start_time)))].
Proof. intros ->. reflexivity. Qed.

(** A recognition that succeeds on the synchronous call heard nothing, yet
    app.py answers "No speech detected" where the concatenation is empty. *)
Lemma empty_concatenation_not_returned :
  recognize_outcome env_silence [] App.config riff None = Ok no_segments
  /\ str_join (top_alternatives (results no_segments)) = ""
  /\ (json_body (fst (App.speech_to_text env_silence clip (initial_world ∅)))
        ≫= json_get "transcript")
     = Some (JString "No speech detected")
  /\ (json_body (fst (App.speech_to_text env_silence clip (initial_world ∅)))
        ≫= json_get "transcript")
     <> Some (JString (str_join (top_alternatives (results no_segments)))).
Proof.
  split; [reflexivity|]. split; [reflexivity|]. split; [reflexivity|].
  vm_compute. discriminate.
Qed.

(** C4, as amended. Whenever the concatenation of the first alternatives of
    the result segments (in the vendor's order, nothing in between, segments
    without alternatives left out) is not empty, it is the transcript the
    handler returns: in app.py on the synchronous path and on the fallback
    path, in main.py on the synchronous path. The segments "hello " and
    "world" give "hello world". *)
Theorem transcript_is_concatenation `{PyRuntime} (env : environment) :
  (forall file w response,
      upload_content file <> [] ->
      str_join (top_alternatives (results response)) <> "" ->
      recognize_outcome env (trace w) App.config (upload_content file) None
      = Ok response ->
      exists processing_time w',
        App.speech_to_text env file w
        = (Ok (ReturnDict
                 [("transcript",
                   JString (str_join (top_alternatives (results response))));
                  ("processing_time_seconds", JNumber processing_time)]), w'))
  /\ (forall file w e response w2,
         upload_content file <> [] ->
         str_join (top_alternatives (results response)) <> "" ->
         recognize_outcome env (trace w) App.config (upload_content file) None
         = Raise e ->
         long_running_attempt env App.config (upload_content file)
           (issue (Recognize App.config (upload_content file) None) (tick w))
         = (Ok response, w2) ->
         exists processing_time w',
           App.speech_to_text env file w
           = (Ok (ReturnDict
                    [("transcript",
                      JString (str_join (top_alternatives (results response))));
                     ("processing_time_seconds", JNumber processing_time)]), w'))
  /\ (forall file w response,
         upload_content file <> [] ->
         str_join (top_alternatives (results response)) <> "" ->
         recognize_outcome env (trace w) Main.config (upload_content file) (Some 10)
         = Ok response ->
         exists processing_time w',
           Main.speech_to_text env file w
           = (Ok (ReturnDict
                    [("transcript",
                      JString (str_join (top_alternatives (results response))));
                     ("processing_time_seconds", JNumber processing_time)]), w'))
  /\ (forall alternative others rest,
         top_alternatives ({| alternatives := alternative :: others |} :: rest)
         = transcript alternative :: top_alternatives rest)
  /\ (forall rest, top_alternatives ({| alternatives := [] |} :: rest)
                   = top_alternatives rest)
  /\ (forall part parts, str_join (part :: parts) = part +:+ str_join parts)
  /\ str_join (top_alternatives
                 [ {| alternatives := [ {| transcript := "hello " |} ] |};
                   {| alternatives := [ {| transcript := "world" |} ] |} ])
     = "hello world".
Proof.
  split; [|split; [|split; [|split; [|split; [|split]]]]].
  - intros file w response Haudio Hheard Hsync.
    rewrite (app_sync_success env file w response Haudio Hsync).
    rewrite (transcript_reply_heard _ _ _ Hheard). eauto.
  - intros file w e response w2 Haudio Hheard Hsync Hlong.
    rewrite (app_sync_failure env file w e Haudio Hsync), Hlong.
    rewrite (transcript_reply_heard _ _ _ Hheard). eauto.
  - intros file w response Haudio Hheard Hsync.
    rewrite (main_sync_success env file w response Haudio Hsync).
    rewrite (transcript_reply_heard _ _ _ Hheard). eauto.
  - reflexivity.
  - reflexivity.
  - exact str_join_cons.
  - reflexivity.
Qed.

Lemma transcript_is_concatenation_witness :
  (exists processing_time w',
      App.speech_to_text env_hello clip (initial_world ∅)
      = (Ok (ReturnDict [("transcript", JString "hello world");
                         ("processing_time_seconds", JNumber processing_time)]), w'))
  /\ (exists processing_time w',
         App.speech_to_text env_sync_down clip (initial_world ∅)
         = (Ok (ReturnDict [("transcript", JString "hello world");
                            ("processing_time_seconds", JNumber processing_time)]), w'))
  /\ (exists processing_time w',
         Main.speech_to_text env_hello clip (initial_world ∅)
         = (Ok (ReturnDict [("transcript", JString "hello world");
                            ("processing_time_seconds", JNumber processing_time)]), w')).
Proof.
  split; [|split].
  - apply (proj1 (transcript_is_concatenation env_hello) clip (initial_world ∅) hello_world).
    + discriminate.
    + discriminate.
    + reflexivity.
  - eapply (proj1 (proj2 (transcript_is_concatenation env_sync_down))
              clip (initial_world ∅) (VendorError "503 unavailable") hello_world).
    + discriminate.
    + discriminate.
    + reflexivity.
    + vm_compute. reflexivity.
  - apply (proj1 (proj2 (proj2 (transcript_is_concatenation env_hello)))
             clip (initial_world ∅) hello_world).
    + discriminate.
    + discriminate.
    + reflexivity.
Defined.

(** ** Silence *)

(** main.py answers a recognition without segments with "No speech detected",
    capital N, not with "no speech detected". *)
Lemma sentinel_spelling :
  recognize_outcome env_silence [] Main.config riff (Some 10) = Ok no_segments
  /\ results no_segments = []
  /\ (json_body (fst (Main.speech_to_text env_silence clip (initial_world ∅)))
        ≫= json_get "transcript")
     = Some (JString "No speech detected")
  /\ (json_body (fst (Main.speech_to_text env_silence clip (initial_world ∅)))
        ≫= json_get "transcript")
     <> Some (JString "no speech detected").
Proof.
  split; [reflexivity|]. split; [reflexivity|]. split; [reflexivity|].
  vm_compute. discriminate.
Qed.

(** C5, as amended. When recognition succeeds and the joined first
    alternatives are empty, as they are when there is no result segment,
    app.py (on either path) and main.py return the transcript
    "No speech detected" together with the rounded difference of the clock
    read after recognition and the clock read on entry. *)
Theorem silence_sentinel `{PyRuntime} (env : environment) :
  (forall file w response,
      upload_content file <> [] ->
      str_join (top_alternatives (results response)) = "" ->
      recognize_outcome env (trace w) App.config (upload_content file) None
      = Ok response ->
      exists w',
        App.speech_to_text env file w
        = (Ok (ReturnDict
                 [("transcript", JString "No speech detected");
                  ("processing_time_seconds",
                   JNumber (round2 (float_sub (wall_clock env (S (clock_reads w)))
                                              (wall_clock env (clock_reads w)))))]), w'))
  /\ (forall file w e response w2,
         upload_content file <> [] ->
         str_join (top_alternatives (results response)) = "" ->
         recognize_outcome env (trace w) App.config (upload_content file) None
         = Raise e ->
         long_running_attempt env App.config (upload_content file)
           (issue (Recognize App.config (upload_content file) None) (tick w))
         = (Ok response, w2) ->
         exists w',
           App.speech_to_text env file w
           = (Ok (ReturnDict
                    [("transcript", JString "No speech detected");
                     ("processing_time_seconds",
                      JNumber (round2 (float_sub (wall_clock env (S (clock_reads w)))
                                                 (wall_clock env (clock_reads w)))))]), w'))
  /\ (forall file w response,
         upload_content file <> [] ->
         str_join (top_alternatives (results response)) = "" ->
         recognize_outcome env (trace w) Main.config (upload_content file) (Some 10)
         = Ok response ->
         exists w',
           Main.speech_to_text env file w
           = (Ok (ReturnDict
                    [("transcript", JString "No speech detected");
                     ("processing_time_seconds",
                      JNumber (round2 (float_sub (wall_clock env (S (clock_reads w)))
                                                 (wall_clock env (clock_reads w)))))]), w'))
  /\ (forall response,
         results response = [] ->
         str_join (top_alternatives (results response)) = "").
Proof.
  split; [|split; [|split]].
  - intros file w response Haudio Hheard Hsync.
    rewrite (app_sync_success env file w response Haudio Hsync).
    rewrite (transcript_reply_silence _ _ _ Hheard). eauto.
  - intros file w e response w2 Haudio Hheard Hsync Hlong.
    rewrite (app_sync_failure env file w e Haudio Hsync), Hlong.
    rewrite (transcript_reply_silence _ _ _ Hheard). eauto.
  - intros file w response Haudio Hheard Hsync.
    rewrite (main_sync_success env file w response Haudio Hsync).
    rewrite (transcript_reply_silence _ _ _ Hheard). eauto.
  - intros response ->. reflexivity.
Qed.

Lemma silence_sentinel_witness :
  (exists w',
      App.speech_to_text env_silence clip (initial_world ∅)
      = (Ok (ReturnDict [("transcript", JString "No speech detected");
                         ("processing_time_seconds", @JNumber rational_runtime (3 # 10))]), w'))
  /\ (exists w',
         Main.speech_to_text env_silence clip (initial_world ∅)
         = (Ok (ReturnDict [("transcript", JString "No speech detected");
                            ("processing_time_seconds", @JNumber rational_runtime (3 # 10))]), w'))
  /\ str_join (top_alternatives (results no_segments)) = "".
Proof.
  destruct (silence_sentinel env_silence) as (Happ & _ & Hmain & Hnone).
  split; [|split].
  - apply (Happ clip (initial_world ∅) no_segments).
    + discriminate.
    + reflexivity.
    + reflexivity.
  - apply (Hmain clip (initial_world ∅) no_segments).
    + discriminate.
    + reflexivity.
    + reflexivity.
  - apply Hnone. reflexivity.
Defined.

(** ** Vendor errors at the handler boundary *)

Lemma app_fallback_failure `{PyRuntime} (env : environment) file w e e2 w2 :
  upload_content file <> [] ->
  recognize_outcome env (trace w) App.config (upload_content file) None = Raise e ->
  long_running_attempt env App.config (upload_content file)
    (issue (Recognize App.config (upload_content file) None) (tick w))
  = (Raise e2, w2) ->
  App.speech_to_text env file w = (Raise (HTTPException 500 (str_exn e2)), w2).
Proof.
  intros Haudio Hsync Hlong.
  now rewrite (app_sync_failure env file w e Haudio Hsync), Hlong.
Qed.

Lemma app_fallback_success `{PyRuntime} (env : environment) file w e response w2 :
  upload_content file <> [] ->
  recognize_outcome env (trace w) App.config (upload_content file) None = Raise e ->
  long_running_attempt env App.config (upload_content file)
    (issue (Recognize App.config (upload_content file) None) (tick w))
  = (Ok response, w2) ->
  exists reply, App.speech_to_text env file w = (Ok (ReturnDict reply), tick w2).
Proof.
  intros Haudio Hsync Hlong.
  rewrite (app_sync_failure env file w e Haudio Hsync), Hlong.
  unfold transcript_reply. eauto.
Qed.

Lemma generate_text_all_fail `{PyRuntime} (env : environment) w audio e1 e2 e3 w1 w2 w3 :
  files w !! "static/output.wav" = Some audio ->
  stt_client_outcome env (trace w) = Ok tt ->
  long_running_attempt env Legacy.config audio (issue SpeechClient_init w)
  = (Raise e1, w1) ->
  long_running_attempt env Legacy.config audio w1 = (Raise e2, w2) ->
  long_running_attempt env Legacy.config audio w2 = (Raise e3, w3) ->
  Legacy.generate_text env w
  = (Ok (ReturnTuple [("error", JString (str_exn e3))] 500), w3).
Proof.
  intros Hfile Hclient H1 H2 H3.
  rewrite (generate_text_recognition env w audio Hfile Hclient).
  change (range 3) with [0; 1; 2].
  rewrite retry_loop_step, H1. cbn [Z.ltb Z.compare].
  rewrite retry_loop_step, H2. cbn [Z.ltb Z.compare Pos.compare Pos.compare_cont].
  rewrite retry_loop_step, H3. reflexivity.
Qed.

Lemma generate_text_second_attempt `{PyRuntime} (env : environment)
    w audio e1 w1 response w2 :
  files w !! "static/output.wav" = Some audio ->
  stt_client_outcome env (trace w) = Ok tt ->
  long_running_attempt env Legacy.config audio (issue SpeechClient_init w)
  = (Raise e1, w1) ->
  long_running_attempt env Legacy.config audio w1 = (Ok response, w2) ->
  Legacy.generate_text env w
  = (Ok (ReturnTuple
           [("transcript", JString (str_join (top_alternatives (results response))))]
           200), w2).
Proof.
  intros Hfile Hclient H1 H2.
  rewrite (generate_text_recognition env w audio Hfile Hclient).
  change (range 3) with [0; 1; 2].
  rewrite retry_loop_step, H1. cbn [Z.ltb Z.compare].
  rewrite retry_loop_step, H2. reflexivity.
Qed.

(** The synchronous call of app.py raises, the fallback succeeds, and the
    answer is a 200 with the transcript: that error became no server error. *)
Lemma absorbed_recognize_error :
  recognize_outcome env_sync_down [] App.config riff None
  = Raise (VendorError "503 unavailable")
  /\ http_status (fst (App.speech_to_text env_sync_down clip (initial_world ∅)))
     = Some 200
  /\ ~ server_error
         (http_status (fst (App.speech_to_text env_sync_down clip (initial_world ∅))))
  /\ (json_body (fst (App.speech_to_text env_sync_down clip (initial_world ∅)))
        ≫= json_get "transcript")
     = Some (JString "hello world").
Proof.
  split; [reflexivity|]. split; [reflexivity|]. split; [|reflexivity].
  intros (s & Hs & Hrange). vm_compute in Hs. injection Hs as <-. lia.
Qed.

(** C8, as amended. No handler lets an exception other than the framework's
    [HTTPException] out. An error of the synthesize call, and an error of the
    last recognition attempt a handler makes (the fallback of app.py, the one
    synchronous call of main.py, the third attempt of test.py), is answered
    with a 500 whose only content is a detail or error text ending in the
    error's message. An error of an earlier attempt is absorbed: when the
    fallback or a retry succeeds the answer is a 200. *)
Theorem vendor_errors_answered `{PyRuntime} (env : environment) :
  ((forall request w, handled (fst (App.text_to_speech env request w)))
   /\ (forall file w, handled (fst (App.speech_to_text env file w)))
   /\ (forall request w, handled (fst (Main.text_to_speech env request w)))
   /\ (forall file w, handled (fst (Main.speech_to_text env file w)))
   /\ (forall request w, handled (fst (Legacy.generate_audio env request w)))
   /\ (forall w, handled (fst (Legacy.generate_text env w))))
  /\ (forall request w e,
         text request <> "" ->
         synthesize_outcome env (trace w) (App.synthesis_request_of (text request))
         = Raise e ->
         fst (App.text_to_speech env request w)
         = Raise (HTTPException 500 (str_exn e)))
  /\ (forall request w e,
         text request <> "" ->
         synthesize_outcome env (trace w) (Main.synthesis_request_of (text request))
         = Raise e ->
         fst (Main.text_to_speech env request w)
         = Raise (HTTPException 500 ("Failed to synthesize speech: " +:+ str_exn e)))
  /\ (forall request w e,
         requested_text request <> "" ->
         tts_client_outcome env (trace w) = Ok tt ->
         synthesize_outcome env (trace w ++ [TextToSpeechClient_init])
           (Legacy.synthesis_request_of (requested_text request)) = Raise e ->
         fst (Legacy.generate_audio env request w)
         = Ok (ReturnTuple [("error", JString (str_exn e))] 500))
  /\ (forall file w e e2 w2,
         upload_content file <> [] ->
         recognize_outcome env (trace w) App.config (upload_content file) None
         = Raise e ->
         long_running_attempt env App.config (upload_content file)
           (issue (Recognize App.config (upload_content file) None) (tick w))
         = (Raise e2, w2) ->
         fst (App.speech_to_text env file w)
         = Raise (HTTPException 500 (str_exn e2)))
  /\ (forall file w e response w2,
         upload_content file <> [] ->
         recognize_outcome env (trace w) App.config (upload_content file) None
         = Raise e ->
         long_running_attempt env App.config (upload_content file)
           (issue (Recognize App.config (upload_content file) None) (tick w))
         = (Ok response, w2) ->
         http_status (fst (App.speech_to_text env file w)) = Some 200)
  /\ (forall file w e,
         upload_content file <> [] ->
         recognize_outcome env (trace w) Main.config (upload_content file) (Some 10)
         = Raise e ->
         fst (Main.speech_to_text env file w)
         = Raise (HTTPException 500
                    ("Speech-to-text failed. Ensure audio format (encoding, sample rate) is correct and within limits, and check network. Error: "
                     +:+ str_exn e)))
  /\ (forall w audio e1 e2 e3 w1 w2 w3,
         files w !! "static/output.wav" = Some audio ->
         stt_client_outcome env (trace w) = Ok tt ->
         long_running_attempt env Legacy.config audio (issue SpeechClient_init w)
         = (Raise e1, w1) ->
         long_running_attempt env Legacy.config audio w1 = (Raise e2, w2) ->
         long_running_attempt env Legacy.config audio w2 = (Raise e3, w3) ->
         fst (Legacy.generate_text env w)
         = Ok (ReturnTuple [("error", JString (str_exn e3))] 500))
  /\ (forall w audio e1 w1 response w2,
         files w !! "static/output.wav" = Some audio ->
         stt_client_outcome env (trace w) = Ok tt ->
         long_running_attempt env Legacy.config audio (issue SpeechClient_init w)
         = (Raise e1, w1) ->
         long_running_attempt env Legacy.config audio w1 = (Ok response, w2) ->
         http_status (fst (Legacy.generate_text env w)) = Some 200).
Proof.
  split; [exact (handlers_handled env)|].
  split.
  { intros request w e Htext Hsynth.
    now rewrite (app_synthesis_failure env request w e Htext Hsynth). }
  split.
  { intros request w e Htext Hsynth.
    now rewrite (main_synthesis_failure env request w e Htext Hsynth). }
  split.
  { intros request w e Htext Hclient Hsynth.
    now rewrite (legacy_synthesis_failure env request w e Htext Hclient Hsynth). }
  split.
  { intros file w e e2 w2 Haudio Hsync Hlong.
    now rewrite (app_fallback_failure env file w e e2 w2 Haudio Hsync Hlong). }
  split.
  { intros file w e response w2 Haudio Hsync Hlong.
    destruct (app_fallback_success env file w e response w2 Haudio Hsync Hlong)
      as [reply ->].
    reflexivity. }
  split.
  { intros file w e Haudio Hsync.
    now rewrite (main_sync_failure env file w e Haudio Hsync). }
  split.
  { intros w audio e1 e2 e3 w1 w2 w3 Hfile Hclient H1 H2 H3.
    now rewrite (generate_text_all_fail env w audio e1 e2 e3 w1 w2 w3
                   Hfile Hclient H1 H2 H3). }
  intros w audio e1 w1 response w2 Hfile Hclient H1 H2.
  now rewrite (generate_text_second_attempt env w audio e1 w1 response w2
                 Hfile Hclient H1 H2).
Qed.

Lemma vendor_errors_answered_witness :
  fst (App.text_to_speech env_all_down {| text := "Hello" |} (initial_world ∅))
  = Raise (HTTPException 500 "quota exceeded")
  /\ fst (Main.text_to_speech env_all_down {| text := "Hello" |} (initial_world ∅))
     = Raise (HTTPException 500 "Failed to synthesize speech: quota exceeded")
  /\ fst (Legacy.generate_audio env_all_down {| method := GET; form_text_input := None |}
            (initial_world ∅))
     = Ok (ReturnTuple [("error", JString "quota exceeded")] 500)
  /\ fst (App.speech_to_text env_all_down clip (initial_world ∅))
     = Raise (HTTPException 500 "deadline exceeded after call 1")
  /\ http_status (fst (App.speech_to_text env_sync_down clip (initial_world ∅)))
     = Some 200
  /\ fst (Main.speech_to_text env_all_down clip (initial_world ∅))
     = Raise (HTTPException 500
                "Speech-to-text failed. Ensure audio format (encoding, sample rate) is correct and within limits, and check network. Error: 503 unavailable")
  /\ fst (Legacy.generate_text env_all_down (initial_world disk_with_output))
     = Ok (ReturnTuple [("error", JString "deadline exceeded after call 3")] 500)
  /\ http_status (fst (Legacy.generate_text env_flaky (initial_world disk_with_output)))
     = Some 200.
Proof.
  destruct (vendor_errors_answered env_all_down)
    as (_ & Happ_tts & Hmain_tts & Hlegacy_tts & Happ_stt & _ & Hmain_stt
        & Hlegacy_stt & _).
  split.
  { apply (Happ_tts {| text := "Hello" |} (initial_world ∅) (VendorError "quota exceeded"));
      [discriminate | reflexivity]. }
  split.
  { apply (Hmain_tts {| text := "Hello" |} (initial_world ∅) (VendorError "quota exceeded"));
      [discriminate | reflexivity]. }
  split.
  { apply (Hlegacy_tts {| method := GET; form_text_input := None |} (initial_world ∅)
             (VendorError "quota exceeded"));
      [discriminate | reflexivity | reflexivity]. }
  split.
  { eapply (Happ_stt clip (initial_world ∅) (VendorError "503 unavailable")
              (VendorError "deadline exceeded after call 1"));
      [discriminate | reflexivity | vm_compute; reflexivity]. }
  split.
  { eapply (proj1 (proj2 (proj2 (proj2 (proj2 (proj2 (vendor_errors_answered env_sync_down))))))
              clip (initial_world ∅) (VendorError "503 unavailable") hello_world);
      [discriminate | reflexivity | vm_compute; reflexivity]. }
  split.
  { apply (Hmain_stt clip (initial_world ∅) (VendorError "503 unavailable"));
      [discriminate | reflexivity]. }
  split.
  { eapply (Hlegacy_stt (initial_world disk_with_output) riff
              (VendorError "deadline exceeded after call 1")
              (VendorError "deadline exceeded after call 2")
              (VendorError "deadline exceeded after call 3"));
      [reflexivity | reflexivity | vm_compute; reflexivity ..]. }
  eapply (proj2 (proj2 (proj2 (proj2 (proj2 (proj2 (proj2 (proj2
            (vendor_errors_answered env_flaky)))))))))
    with (audio := riff) (e1 := VendorError "try again") (response := hello_world);
    [reflexivity | reflexivity | vm_compute; reflexivity ..].
Defined.

(** * Further properties of the code *)

(** ** The chunk generator, chunk by chunk *)

Lemma chunk_size_positive : (0 < chunk_size)%nat.
Proof. unfold chunk_size. lia. Qed.

(** Reading on from a position is reading a fresh buffer of the bytes left. *)
Lemma stream_loop_from (left : nat) : forall buffer,
  (length (getvalue buffer) - tell buffer <= left)%nat ->
  stream_loop buffer
  = audio_stream_generator (drop (tell buffer) (getvalue buffer)).
Proof.
  pose proof chunk_size_positive as Hpos.
  induction left as [|left IH]; intros buffer Hleft;
    unfold audio_stream_generator;
    rewrite (stream_loop_step buffer), (stream_loop_step (BytesIO_new _));
    cbn zeta; cbn [BytesIO_new getvalue tell]; rewrite drop_0;
    set (rest := drop (tell buffer) (getvalue buffer));
    assert (Hrest : length rest = (length (getvalue buffer) - tell buffer)%nat)
      by (subst rest; apply length_drop).
  - assert (E : rest = []) by (apply length_zero_iff_nil; lia).
    rewrite E, take_nil. reflexivity.
  - destruct (truthy_list (take chunk_size rest)) eqn:Htruthy; [|reflexivity].
    assert (Hchunk : (0 < length (take chunk_size rest))%nat).
    { destruct (take chunk_size rest); [discriminate | simpl; lia]. }
    f_equal.
    rewrite (IH {| getvalue := getvalue buffer; tell := _ |})
      by (cbn [getvalue tell]; lia).
    rewrite (IH {| getvalue := rest; tell := _ |})
      by (cbn [getvalue tell]; lia).
    cbn [getvalue tell]. subst rest. now rewrite drop_drop.
Qed.

Lemma audio_stream_generator_nil : audio_stream_generator [] = [].
Proof. unfold audio_stream_generator. rewrite stream_loop_step. reflexivity. Qed.

(** One turn of the loop, seen from outside. *)
Lemma audio_stream_generator_step (b : Byte.byte) (rest : bytes) :
  audio_stream_generator (b :: rest)
  = take chunk_size (b :: rest)
    :: audio_stream_generator (drop chunk_size (b :: rest)).
Proof.
  pose proof chunk_size_positive as Hpos.
  unfold audio_stream_generator at 1. rewrite stream_loop_step.
  cbn zeta. cbn [BytesIO_new getvalue tell]. rewrite drop_0.
  destruct (take chunk_size (b :: rest)) as [|c chunk] eqn:Htake.
  { apply (f_equal length) in Htake. rewrite length_take in Htake.
    cbn [length] in Htake. lia. }
  cbn [truthy_list]. f_equal.
  rewrite (stream_loop_from (length (b :: rest))) by (cbn [getvalue tell]; lia).
  cbn [getvalue tell]. rewrite Nat.add_0_l, <- Htake.
  f_equal. rewrite length_take.
  destruct (Nat.le_gt_cases chunk_size (length (b :: rest))).
  - f_equal. lia.
  - rewrite !drop_ge by lia. reflexivity.
Qed.

Lemma div_ceil_small (c n : nat) :
  (0 < n <= c)%nat -> ((n + (c - 1)) / c = 1)%nat.
Proof.
  intros Hn. symmetry. apply (Nat.div_unique _ _ _ (n - 1)); lia.
Qed.

Lemma div_ceil_step (c n : nat) :
  (0 < c)%nat -> ((n + c + (c - 1)) / c = S ((n + (c - 1)) / c))%nat.
Proof.
  intros Hc.
  replace (n + c + (c - 1))%nat with (n + (c - 1) + 1 * c)%nat by lia.
  rewrite Nat.div_add by lia. lia.
Qed.

Lemma audio_stream_generator_length_upto (n : nat) : forall content : bytes,
  (length content <= n)%nat ->
  length (audio_stream_generator content)
  = ((length content + (chunk_size - 1)) / chunk_size)%nat.
Proof.
  pose proof chunk_size_positive as Hpos.
  induction n as [|n IH]; intros content Hn.
  - destruct content; [|cbn in Hn; lia].
    rewrite audio_stream_generator_nil. cbn [length].
    rewrite Nat.add_0_l. symmetry. apply Nat.div_small. lia.
  - destruct content as [|b rest].
    { rewrite audio_stream_generator_nil. cbn [length].
      rewrite Nat.add_0_l. symmetry. apply Nat.div_small. lia. }
    rewrite audio_stream_generator_step.
    set (len := length (b :: rest)) in *.
    assert (Hlen : (0 < len <= S n)%nat) by (subst len; cbn [length] in *; lia).
    cbn [length]. rewrite IH by (rewrite length_drop; fold len; lia).
    rewrite length_drop. fold len.
    destruct (Nat.le_gt_cases chunk_size len) as [Hbig|Hsmall].
    + assert (E : (len + (chunk_size - 1)
                   = len - chunk_size + chunk_size + (chunk_size - 1))%nat) by lia.
      rewrite E. now rewrite div_ceil_step.
    + replace (len - chunk_size)%nat with 0%nat by lia.
      rewrite Nat.add_0_l, Nat.div_small by lia.
      rewrite div_ceil_small; [reflexivity | lia].
Qed.

(** X1. The generator yields ceil(len / 4096) chunks. *)
Theorem audio_stream_generator_count (audio_content_bytes : bytes) :
  length (audio_stream_generator audio_content_bytes)
  = ((length audio_content_bytes + 4095) / 4096)%nat.
Proof.
  apply (audio_stream_generator_length_upto (length audio_content_bytes)). lia.
Qed.

Lemma audio_stream_generator_lookup_cs (i : nat) : forall audio_content_bytes : bytes,
  audio_stream_generator audio_content_bytes !! i
  = if (i * chunk_size <? length audio_content_bytes)%nat
    then Some (take chunk_size (drop (i * chunk_size) audio_content_bytes))
    else None.
Proof.
  pose proof chunk_size_positive as Hpos.
  induction i as [|i IH]; intros [|b rest].
  - rewrite audio_stream_generator_nil. reflexivity.
  - rewrite audio_stream_generator_step. reflexivity.
  - rewrite audio_stream_generator_nil.
    destruct (Nat.ltb_spec (S i * chunk_size) (length (@nil Byte.byte)));
      [cbn [length] in *; lia | reflexivity].
  - rewrite audio_stream_generator_step.
    rewrite lookup_cons.
    rewrite IH, length_drop, drop_drop.
    replace (chunk_size + i * chunk_size)%nat with (S i * chunk_size)%nat by lia.
    destruct (Nat.ltb_spec (i * chunk_size) (length (b :: rest) - chunk_size));
      destruct (Nat.ltb_spec (S i * chunk_size) (length (b :: rest)));
      try reflexivity; lia.
Qed.

(** X2. The chunk of index [i] is the slice of 4096 bytes from offset
    [i * 4096], and there is one exactly when that offset lies in the buffer. *)
Theorem audio_stream_generator_lookup (i : nat) (audio_content_bytes : bytes) :
  audio_stream_generator audio_content_bytes !! i
  = if (i * 4096 <? length audio_content_bytes)%nat
    then Some (take 4096 (drop (i * 4096) audio_content_bytes))
    else None.
Proof. exact (audio_stream_generator_lookup_cs i audio_content_bytes). Qed.

Lemma audio_stream_generator_app_cs (k : nat) : forall a b : bytes,
  length a = (k * chunk_size)%nat ->
  audio_stream_generator (a ++ b)
  = audio_stream_generator a ++ audio_stream_generator b.
Proof.
  pose proof chunk_size_positive as Hpos.
  induction k as [|k IH]; intros a b Hlen.
  - destruct a; [|cbn [length] in Hlen; lia].
    now rewrite audio_stream_generator_nil.
  - destruct a as [|x a]; [cbn [length] in Hlen; lia|].
    rewrite <- app_comm_cons.
    rewrite !audio_stream_generator_step.
    rewrite app_comm_cons.
    rewrite take_app_le, drop_app_le by lia.
    rewrite IH by (rewrite length_drop; lia).
    reflexivity.
Qed.

(** X3. After a whole number of chunks the generator starts afresh: the
    chunks of [a ++ b] are those of [a] followed by those of [b] when the
    length of [a] is a multiple of 4096. *)
Theorem audio_stream_generator_app (k : nat) (a b : bytes) :
  length a = (k * 4096)%nat ->
  audio_stream_generator (a ++ b)
  = audio_stream_generator a ++ audio_stream_generator b.
Proof. exact (audio_stream_generator_app_cs k a b). Qed.

Lemma audio_stream_generator_app_witness :
  length (repeat Byte.x00 4096) = (1 * 4096)%nat
  /\ audio_stream_generator (repeat Byte.x00 4096 ++ riff)
     = audio_stream_generator (repeat Byte.x00 4096) ++ audio_stream_generator riff.
Proof.
  split; [vm_compute; reflexivity|].
  apply (audio_stream_generator_app 1). vm_compute. reflexivity.
Defined.

(** ** What the handlers call and what they leave alone *)

(** X4. A non-empty text is forwarded to the vendor as it is, in one
    synthesize call with the fixed voice (en-US, en-US-Studio-O, LINEAR16,
    rate 1.0; main.py adds the 24000 Hz sample rate), whether that call
    succeeds or fails; app.py and main.py issue no other vendor call. *)
Theorem synthesis_forwards_text `{PyRuntime} (env : environment) :
  (forall request w,
      text request <> "" ->
      new_calls w (snd (App.text_to_speech env request w))
      = [Synthesize
           {| input_text := text request;
              voice := {| voice_language_code := "en-US";
                          voice_name := "en-US-Studio-O" |};
              audio_cfg := {| audio_encoding_ := LINEAR16; speaking_rate := 1%Q;
                              audio_sample_rate_hertz := None |} |}])
  /\ (forall request w,
         text request <> "" ->
         new_calls w (snd (Main.text_to_speech env request w))
         = [Synthesize
              {| input_text := text request;
                 voice := {| voice_language_code := "en-US";
                             voice_name := "en-US-Studio-O" |};
                 audio_cfg := {| audio_encoding_ := LINEAR16; speaking_rate := 1%Q;
                                 audio_sample_rate_hertz := Some 24000 |} |}])
  /\ (forall request w,
         requested_text request <> "" ->
         tts_client_outcome env (trace w) = Ok tt ->
         new_calls w (snd (Legacy.generate_audio env request w))
         = [TextToSpeechClient_init;
            Synthesize
              {| input_text := requested_text request;
                 voice := {| voice_language_code := "en-US";
                             voice_name := "en-US-Studio-O" |};
                 audio_cfg := {| audio_encoding_ := LINEAR16; speaking_rate := 1%Q;
                                 audio_sample_rate_hertz := None |} |}]).
Proof.
  split; [|split].
  - intros request w Htext.
    destruct (synthesize_outcome env (trace w) (App.synthesis_request_of (text request)))
      as [response|e] eqn:Hsynth.
    + rewrite (app_synthesis_returns env request w response Htext Hsynth).
      cbn zeta. destruct (file_write_outcome env _ _ _); now apply new_calls_app.
    + rewrite (app_synthesis_failure env request w e Htext Hsynth).
      now apply new_calls_app.
  - intros request w Htext.
    destruct (synthesize_outcome env (trace w) (Main.synthesis_request_of (text request)))
      as [response|e] eqn:Hsynth.
    + rewrite (main_synthesis_success env request w response Htext Hsynth).
      now apply new_calls_app.
    + rewrite (main_synthesis_failure env request w e Htext Hsynth).
      now apply new_calls_app.
  - intros request w Htext Hclient.
    destruct (synthesize_outcome env (trace w ++ [TextToSpeechClient_init])
                (Legacy.synthesis_request_of (requested_text request)))
      as [response|e] eqn:Hsynth.
    + rewrite (legacy_synthesis_returns env request w response Htext Hclient Hsynth).
      cbn zeta.
      destruct (makedirs_outcome env _ _); [destruct (file_write_outcome env _ _ _)|];
        apply new_calls_app; cbn; now rewrite <- app_assoc.
    + rewrite (legacy_synthesis_failure env request w e Htext Hclient Hsynth).
      apply new_calls_app. cbn. now rewrite <- app_assoc.
Qed.

Lemma synthesis_forwards_text_witness :
  new_calls (initial_world ∅)
    (snd (App.text_to_speech env_all_down {| text := "Hi" |} (initial_world ∅)))
  = [Synthesize (App.synthesis_request_of "Hi")]
  /\ new_calls (initial_world ∅)
       (snd (Main.text_to_speech env_hello {| text := "Hi" |} (initial_world ∅)))
     = [Synthesize (Main.synthesis_request_of "Hi")]
  /\ new_calls (initial_world ∅)
       (snd (Legacy.generate_audio env_hello
               {| method := POST; form_text_input := Some "Hi" |} (initial_world ∅)))
     = [TextToSpeechClient_init; Synthesize (Legacy.synthesis_request_of "Hi")].
Proof.
  split; [|split].
  - apply (proj1 (synthesis_forwards_text env_all_down) {| text := "Hi" |}).
    discriminate.
  - apply (proj1 (proj2 (synthesis_forwards_text env_hello)) {| text := "Hi" |}).
    discriminate.
  - apply (proj2 (proj2 (synthesis_forwards_text env_hello))
             {| method := POST; form_text_input := Some "Hi" |}).
    + discriminate.
    + reflexivity.
Defined.

(** X5. File-mode synthesis leaves the disk alone until the synthesize call
    has returned: for an empty text, a client that cannot be built (test.py)
    or a synthesize call that raises, the files after app.py's
    [text_to_speech] and test.py's [generate_audio] are the files before. *)
Theorem no_file_before_synthesis `{PyRuntime} (env : environment) :
  (forall request w,
      (text request = ""
       \/ exists e, synthesize_outcome env (trace w)
                      (App.synthesis_request_of (text request)) = Raise e) ->
      files (snd (App.text_to_speech env request w)) = files w)
  /\ (forall request w,
         (requested_text request = ""
          \/ (exists e, tts_client_outcome env (trace w) = Raise e)
          \/ exists e, synthesize_outcome env (trace w ++ [TextToSpeechClient_init])
                         (Legacy.synthesis_request_of (requested_text request))
                       = Raise e) ->
         files (snd (Legacy.generate_audio env request w)) = files w).
Proof.
  split.
  - intros request w Hcase.
    destruct (String.string_dec (text request) "") as [Hempty|Htext].
    { now rewrite (empty_text_app env request w Hempty). }
    destruct Hcase as [Hempty | [e Hsynth]]; [contradiction|].
    now rewrite (app_synthesis_failure env request w e Htext Hsynth).
  - intros request w Hcase.
    destruct (String.string_dec (requested_text request) "") as [Hempty|Htext].
    { now rewrite (empty_text_legacy env request w Hempty). }
    destruct (tts_client_outcome env (trace w)) as [[]|e] eqn:Hclient.
    2:{ now rewrite (legacy_client_failure env request w e Htext Hclient). }
    destruct Hcase as [Hempty | [[e Hfail] | [e Hsynth]]];
      [contradiction | discriminate |].
    now rewrite (legacy_synthesis_failure env request w e Htext Hclient Hsynth).
Qed.

Lemma no_file_before_synthesis_witness :
  files (snd (App.text_to_speech env_all_down {| text := "Hi" |}
                (initial_world disk_with_output))) = disk_with_output
  /\ files (snd (Legacy.generate_audio env_no_credentials
                   {| method := GET; form_text_input := None |}
                   (initial_world disk_with_output))) = disk_with_output.
Proof.
  split.
  - apply (proj1 (no_file_before_synthesis env_all_down) {| text := "Hi" |}
             (initial_world disk_with_output)).
    right. eexists. reflexivity.
  - apply (proj2 (no_file_before_synthesis env_no_credentials)
             {| method := GET; form_text_input := None |}
             (initial_world disk_with_output)).
    right. left. eexists. reflexivity.
Defined.

Lemma retry_loop_exit `{PyRuntime} (env : environment) attempts : forall audio w x w',
  Legacy.retry_loop env attempts audio w = (x, w') ->
  x = Ok Legacy.Exhausted
  \/ (exists response, x = Ok (Legacy.Break response))
  \/ (exists e, x = Ok (Legacy.Return
                          (ReturnTuple [("error", JString (str_exn e))] 500))).
Proof.
  induction attempts as [|attempt rest IH]; intros audio w x w'.
  - intros [= <- <-]. now left.
  - rewrite retry_loop_step.
    destruct (long_running_attempt env Legacy.config audio w) as [[response|e] w1].
    + intros [= <- <-]. right. left. eauto.
    + destruct (attempt <? 2)%Z.
      * apply IH.
      * intros [= <- <-]. right. right. eauto.
Qed.

(** The three ways [generate_text] goes once the file is there and the
    client is built. *)
Lemma generate_text_outcomes `{PyRuntime} (env : environment) w audio :
  files w !! "static/output.wav" = Some audio ->
  stt_client_outcome env (trace w) = Ok tt ->
  exists w' suffix,
    snd (Legacy.generate_text env w) = w'
    /\ files w' = files w
    /\ clock_reads w' = clock_reads w
    /\ trace w' = trace w ++ SpeechClient_init :: suffix
    /\ (count_calls is_long_running suffix <= 3)%nat
    /\ count_calls is_recognize suffix = 0%nat
    /\ count_calls is_synthesize suffix = 0%nat
    /\ (http_status (fst (Legacy.generate_text env w)) = Some 200
        \/ http_status (fst (Legacy.generate_text env w)) = Some 500).
Proof.
  intros Hfile Hclient.
  rewrite (generate_text_recognition env w audio Hfile Hclient).
  destruct (Legacy.retry_loop env (range 3) audio (issue SpeechClient_init w))
    as [x wl] eqn:Hloop.
  destruct (retry_loop_calls env _ _ _ _ _ Hloop)
    as (_ & Hclock & Hfiles & suffix & Htrace & Hlong & Hrec & Hsyn).
  cbn [issue trace clock_reads files] in *. rewrite <- app_assoc in Htrace.
  exists wl, suffix.
  destruct (retry_loop_exit env _ _ _ _ _ Hloop) as [-> | [[response ->] | [e ->]]];
    cbn [fst snd http_status]; repeat split; auto.
Qed.

(** X6. Transcription never writes a file and never calls synthesize, and
    neither does the streaming synthesis write one: the files after
    [speech_to_text] (app.py, main.py), [generate_text] (test.py) and
    main.py's [text_to_speech] are the files before, whatever the vendor does. *)
Theorem handlers_leave_files `{PyRuntime} (env : environment) :
  (forall file w,
      files (snd (App.speech_to_text env file w)) = files w
      /\ count_calls is_synthesize (new_calls w (snd (App.speech_to_text env file w)))
         = 0%nat)
  /\ (forall file w,
         files (snd (Main.speech_to_text env file w)) = files w
         /\ count_calls is_synthesize
              (new_calls w (snd (Main.speech_to_text env file w))) = 0%nat)
  /\ (forall w,
         files (snd (Legacy.generate_text env w)) = files w
         /\ count_calls is_synthesize (new_calls w (snd (Legacy.generate_text env w)))
            = 0%nat)
  /\ (forall request w,
         files (snd (Main.text_to_speech env request w)) = files w).
Proof.
  split; [|split; [|split]].
  - intros file w.
    destruct (upload_content file) as [|b rest] eqn:Hcontent.
    { rewrite (app_empty_upload env file w Hcontent). cbn [snd].
      rewrite (new_calls_app w (tick w) [] (eq_sym (app_nil_r _))). auto. }
    assert (Haudio : upload_content file <> []) by congruence.
    destruct (recognize_outcome env (trace w) App.config (upload_content file) None)
      as [response|e] eqn:Hsync.
    { rewrite (app_sync_success env file w response Haudio Hsync). cbn [snd].
      rewrite (new_calls_app w _ [Recognize App.config (upload_content file) None])
        by reflexivity.
      auto. }
    rewrite (app_sync_failure env file w e Haudio Hsync).
    destruct (long_running_attempt env App.config (upload_content file) _)
      as [r2 w2] eqn:Hlong.
    destruct (long_running_attempt_calls _ _ _ _ _ _ Hlong) as (_ & Hfiles & Htrace).
    cbn [issue tick trace files] in Hfiles, Htrace.
    assert (Hcount : forall w3, trace w3 = trace w2 ->
               count_calls is_synthesize (new_calls w w3) = 0%nat).
    { intros w3 E.
      destruct Htrace as [Ht | Ht]; rewrite Ht, <- app_assoc in E;
        rewrite (new_calls_app _ _ _ E); reflexivity. }
    destruct r2; cbn [snd]; split; auto.
  - intros file w.
    destruct (upload_content file) as [|b rest] eqn:Hcontent.
    { rewrite (main_empty_upload env file w Hcontent). cbn [snd].
      rewrite (new_calls_app w (tick w) [] (eq_sym (app_nil_r _))). auto. }
    assert (Haudio : upload_content file <> []) by congruence.
    destruct (recognize_outcome env (trace w) Main.config (upload_content file) (Some 10))
      as [response|e] eqn:Hsync.
    + rewrite (main_sync_success env file w response Haudio Hsync). cbn [snd].
      rewrite (new_calls_app w _ [Recognize Main.config (upload_content file) (Some 10)])
        by reflexivity.
      auto.
    + rewrite (main_sync_failure env file w e Haudio Hsync). cbn [snd].
      rewrite (new_calls_app w _ [Recognize Main.config (upload_content file) (Some 10)])
        by reflexivity.
      auto.
  - intros w.
    destruct (files w !! "static/output.wav") as [audio|] eqn:Hfile.
    2:{ rewrite (generate_text_missing env w Hfile). cbn [snd].
        rewrite new_calls_refl. auto. }
    destruct (stt_client_outcome env (trace w)) as [[]|e] eqn:Hclient.
    2:{ rewrite (generate_text_client_failure env w audio e Hfile Hclient). cbn [snd].
        rewrite (new_calls_app w (issue SpeechClient_init w) [SpeechClient_init] eq_refl).
        auto. }
    destruct (generate_text_outcomes env w audio Hfile Hclient)
      as (w' & suffix & -> & Hfiles & _ & Htrace & _ & _ & Hsyn & _).
    rewrite (new_calls_app _ _ _ Htrace). split; [assumption|].
    exact Hsyn.
  - intros request w.
    destruct (String.string_dec (text request) "") as [Hempty|Htext].
    { now rewrite (empty_text_main env request w Hempty). }
    destruct (synthesize_outcome env (trace w) (Main.synthesis_request_of (text request)))
      as [response|e] eqn:Hsynth.
    + now rewrite (main_synthesis_success env request w response Htext Hsynth).
    + now rewrite (main_synthesis_failure env request w e Htext Hsynth).
Qed.

(** X7. main.py's [speech_to_text] answers 400 exactly for an empty upload;
    for any other upload it issues the one synchronous [recognize] call with
    the 10 second timeout and answers 200 when that returns, 500 when it
    raises. *)
Theorem main_speech_to_text_status `{PyRuntime} (env : environment)
    (file : UploadFile) (w : world) :
  http_status (fst (Main.speech_to_text env file w))
  = Some (if truthy_list (upload_content file)
          then match recognize_outcome env (trace w) Main.config
                       (upload_content file) (Some 10) with
               | Ok _ => 200
               | Raise _ => 500
               end
          else 400)
  /\ new_calls w (snd (Main.speech_to_text env file w))
     = (if truthy_list (upload_content file)
        then [Recognize Main.config (upload_content file) (Some 10)]
        else []).
Proof.
  destruct (upload_content file) as [|b rest] eqn:Hcontent.
  { rewrite (main_empty_upload env file w Hcontent). cbn.
    now rewrite (new_calls_app w (tick w) [] (eq_sym (app_nil_r _))). }
  assert (Haudio : upload_content file <> []) by congruence.
  rewrite <- Hcontent. rewrite (truthy_list_true _ Haudio).
  destruct (recognize_outcome env (trace w) Main.config (upload_content file) (Some 10))
    as [response|e] eqn:Hsync.
  - rewrite (main_sync_success env file w response Haudio Hsync).
    split; [reflexivity | now apply new_calls_app].
  - rewrite (main_sync_failure env file w e Haudio Hsync).
    split; [reflexivity | now apply new_calls_app].
Qed.

(** X8. app.py's [speech_to_text] calls [recognize] at most once and starts
    the long-running operation at most once, and only after [recognize] has
    raised: when [recognize] returns, it is the only vendor call. *)
Theorem app_speech_to_text_calls `{PyRuntime} (env : environment)
    (file : UploadFile) (w : world) :
  (count_calls is_recognize (new_calls w (snd (App.speech_to_text env file w))) <= 1)%nat
  /\ (count_calls is_long_running (new_calls w (snd (App.speech_to_text env file w)))
      <= 1)%nat
  /\ (upload_content file = [] ->
      new_calls w (snd (App.speech_to_text env file w)) = [])
  /\ (forall response,
         upload_content file <> [] ->
         recognize_outcome env (trace w) App.config (upload_content file) None
         = Ok response ->
         new_calls w (snd (App.speech_to_text env file w))
         = [Recognize App.config (upload_content file) None]).
Proof.
  assert (Hsuccess : forall response,
             upload_content file <> [] ->
             recognize_outcome env (trace w) App.config (upload_content file) None
             = Ok response ->
             new_calls w (snd (App.speech_to_text env file w))
             = [Recognize App.config (upload_content file) None]).
  { intros response Haudio Hsync.
    rewrite (app_sync_success env file w response Haudio Hsync).
    now apply new_calls_app. }
  assert (Hempty : upload_content file = [] ->
                   new_calls w (snd (App.speech_to_text env file w)) = []).
  { intros Hcontent. rewrite (app_empty_upload env file w Hcontent).
    now apply new_calls_app; rewrite app_nil_r. }
  destruct (upload_content file) as [|b rest] eqn:Hcontent.
  { rewrite (Hempty eq_refl).
    split; [cbn; lia|]. split; [cbn; lia|]. split; [reflexivity|].
    intros response Hne. now contradiction Hne. }
  assert (Haudio : upload_content file <> []) by congruence.
  rewrite <- Hcontent in *.
  destruct (recognize_outcome env (trace w) App.config (upload_content file) None)
    as [response|e] eqn:Hsync.
  { rewrite (Hsuccess response Haudio eq_refl).
    split; [cbn; lia|]. split; [cbn; lia|]. split; [congruence|].
    intros response' _ _. reflexivity. }
  split; [|split; [|split]]; [| |congruence|discriminate].
  all: rewrite (app_sync_failure env file w e Haudio Hsync);
    destruct (long_running_attempt env App.config (upload_content file) _)
      as [r2 w2] eqn:Hlong;
    destruct (long_running_attempt_calls _ _ _ _ _ _ Hlong) as (_ & _ & Htrace);
    cbn [issue tick trace] in Htrace;
    assert (Hcalls : forall w3, trace w3 = trace w2 ->
               count_calls is_recognize (new_calls w w3) = 1%nat
               /\ count_calls is_long_running (new_calls w w3) = 1%nat)
      by (intros w3 E;
          destruct Htrace as [Ht | Ht]; rewrite Ht, <- app_assoc in E;
          rewrite (new_calls_app _ _ _ E); split; reflexivity);
    destruct r2; cbn [snd];
    match goal with
    | |- context [new_calls _ ?w3] => destruct (Hcalls w3 eq_refl); lia
    end.
Qed.

Lemma app_speech_to_text_calls_witness :
  new_calls (initial_world ∅) (snd (App.speech_to_text env_hello clip (initial_world ∅)))
  = [Recognize App.config riff None]
  /\ new_calls (initial_world ∅)
       (snd (App.speech_to_text env_hello {| filename := "empty.wav"; upload_content := [] |}
               (initial_world ∅)))
     = [].
Proof.
  split.
  - apply (proj2 (proj2 (proj2 (app_speech_to_text_calls env_hello clip (initial_world ∅))))
             hello_world).
    + discriminate.
    + reflexivity.
  - apply (proj1 (proj2 (proj2 (app_speech_to_text_calls env_hello
                                  {| filename := "empty.wav"; upload_content := [] |}
                                  (initial_world ∅))))).
    reflexivity.
Defined.

(** ** test.py *)

Lemma requested_text_empty (request : flask_request) :
  requested_text request = ""
  <-> method request = POST /\ form_text_input request = Some "".
Proof.
  unfold requested_text.
  destruct request as [[|] [[|c s]|]]; cbn; split;
    try discriminate; try (intros [? ?]; discriminate); auto.
Qed.

(** X9. test.py's [generate_audio] answers 400 exactly when the request is a
    POST whose form has an empty [text_input]: a GET, and a POST without the
    field, fall back on the built-in sentences and are never refused. *)
Theorem generate_audio_bad_request `{PyRuntime} (env : environment)
    (request : flask_request) (w : world) :
  http_status (fst (Legacy.generate_audio env request w)) = Some 400
  <-> method request = POST /\ form_text_input request = Some "".
Proof.
  rewrite <- requested_text_empty. split.
  - intros Hstatus.
    destruct (String.string_dec (requested_text request) "") as [Hempty|Htext];
      [assumption | exfalso].
    destruct (tts_client_outcome env (trace w)) as [[]|e] eqn:Hclient.
    2:{ rewrite (legacy_client_failure env request w e Htext Hclient) in Hstatus.
        discriminate. }
    destruct (synthesize_outcome env (trace w ++ [TextToSpeechClient_init])
                (Legacy.synthesis_request_of (requested_text request)))
      as [response|e] eqn:Hsynth.
    + rewrite (legacy_synthesis_returns env request w response Htext Hclient Hsynth)
        in Hstatus.
      cbn zeta in Hstatus.
      destruct (makedirs_outcome env _ _); [|discriminate].
      destruct (file_write_outcome env _ _ _); discriminate.
    + rewrite (legacy_synthesis_failure env request w e Htext Hclient Hsynth)
        in Hstatus.
      discriminate.
  - intros Hempty. now rewrite (empty_text_legacy env request w Hempty).
Qed.

Lemma generate_audio_bad_request_witness :
  http_status
    (fst (Legacy.generate_audio env_hello
            {| method := POST; form_text_input := Some "" |} (initial_world ∅)))
  = Some 400.
Proof.
  apply (proj2 (generate_audio_bad_request env_hello
                  {| method := POST; form_text_input := Some "" |} (initial_world ∅))).
  split; reflexivity.
Defined.

(** X10. test.py's [generate_text] answers 404 exactly when
    [static/output.wav] does not exist, and then it has built no client and
    issued no vendor call: the world is as it was. *)
Theorem generate_text_not_found `{PyRuntime} (env : environment) (w : world) :
  (http_status (fst (Legacy.generate_text env w)) = Some 404
   <-> files w !! "static/output.wav" = None)
  /\ (files w !! "static/output.wav" = None ->
      Legacy.generate_text env w
      = (Ok (ReturnTuple [("error", JString "Audio file not found.")] 404), w)).
Proof.
  split; [|apply generate_text_missing].
  split.
  - intros Hstatus.
    destruct (files w !! "static/output.wav") as [audio|] eqn:Hfile; [exfalso|reflexivity].
    destruct (stt_client_outcome env (trace w)) as [[]|e] eqn:Hclient.
    + destruct (generate_text_outcomes env w audio Hfile Hclient)
        as (_ & _ & _ & _ & _ & _ & _ & _ & _ & [Hs | Hs]);
        rewrite Hs in Hstatus; discriminate.
    + rewrite (generate_text_client_failure env w audio e Hfile Hclient) in Hstatus.
      discriminate.
  - intros Hmissing. now rewrite (generate_text_missing env w Hmissing).
Qed.

Lemma generate_text_not_found_witness :
  Legacy.generate_text env_hello (initial_world ∅)
  = (Ok (ReturnTuple [("error", JString "Audio file not found.")] 404),
     initial_world ∅).
Proof.
  apply (proj2 (generate_text_not_found env_hello (initial_world ∅))).
  reflexivity.
Defined.

Lemma generate_text_first_attempt `{PyRuntime} (env : environment)
    w audio response w1 :
  files w !! "static/output.wav" = Some audio ->
  stt_client_outcome env (trace w) = Ok tt ->
  long_running_attempt env Legacy.config audio (issue SpeechClient_init w)
  = (Ok response, w1) ->
  Legacy.generate_text env w
  = (Ok (ReturnTuple
           [("transcript", JString (str_join (top_alternatives (results response))))]
           200), w1).
Proof.
  intros Hfile Hclient H1.
  rewrite (generate_text_recognition env w audio Hfile Hclient).
  change (range 3) with [0; 1; 2].
  rewrite retry_loop_step, H1. reflexivity.
Qed.

Lemma generate_text_third_attempt `{PyRuntime} (env : environment)
    w audio e1 w1 e2 w2 response w3 :
  files w !! "static/output.wav" = Some audio ->
  stt_client_outcome env (trace w) = Ok tt ->
  long_running_attempt env Legacy.config audio (issue SpeechClient_init w)
  = (Raise e1, w1) ->
  long_running_attempt env Legacy.config audio w1 = (Raise e2, w2) ->
  long_running_attempt env Legacy.config audio w2 = (Ok response, w3) ->
  Legacy.generate_text env w
  = (Ok (ReturnTuple
           [("transcript", JString (str_join (top_alternatives (results response))))]
           200), w3).
Proof.
  intros Hfile Hclient H1 H2 H3.
  rewrite (generate_text_recognition env w audio Hfile Hclient).
  change (range 3) with [0; 1; 2].
  rewrite retry_loop_step, H1. cbn [Z.ltb Z.compare].
  rewrite retry_loop_step, H2. cbn [Z.ltb Z.compare Pos.compare Pos.compare_cont].
  rewrite retry_loop_step, H3. reflexivity.
Qed.

(** X11. test.py's retry loop stops at the first attempt that succeeds: the
    answer is a 200 whose transcript is the joined first alternatives of that
    attempt's response, returned as it is (the empty string when nothing was
    heard: there is no sentinel here), and the world is the one that attempt
    left, so no further call is issued. *)
Theorem generate_text_stops_at_success `{PyRuntime} (env : environment)
    (w : world) (audio : bytes) :
  files w !! "static/output.wav" = Some audio ->
  stt_client_outcome env (trace w) = Ok tt ->
  (forall response w1,
      long_running_attempt env Legacy.config audio (issue SpeechClient_init w)
      = (Ok response, w1) ->
      Legacy.generate_text env w
      = (Ok (ReturnTuple
               [("transcript",
                 JString (str_join (top_alternatives (results response))))] 200), w1))
  /\ (forall e1 w1 response w2,
         long_running_attempt env Legacy.config audio (issue SpeechClient_init w)
         = (Raise e1, w1) ->
         long_running_attempt env Legacy.config audio w1 = (Ok response, w2) ->
         Legacy.generate_text env w
         = (Ok (ReturnTuple
                  [("transcript",
                    JString (str_join (top_alternatives (results response))))] 200), w2))
  /\ (forall e1 w1 e2 w2 response w3,
         long_running_attempt env Legacy.config audio (issue SpeechClient_init w)
         = (Raise e1, w1) ->
         long_running_attempt env Legacy.config audio w1 = (Raise e2, w2) ->
         long_running_attempt env Legacy.config audio w2 = (Ok response, w3) ->
         Legacy.generate_text env w
         = (Ok (ReturnTuple
                  [("transcript",
                    JString (str_join (top_alternatives (results response))))] 200), w3))
  /\ (forall response,
         results response = [] ->
         str_join (top_alternatives (results response)) = "").
Proof.
  intros Hfile Hclient. split; [|split; [|split]].
  - intros response w1. now apply generate_text_first_attempt.
  - intros e1 w1 response w2. now apply generate_text_second_attempt.
  - intros e1 w1 e2 w2 response w3. now apply generate_text_third_attempt.
  - intros response ->. reflexivity.
Qed.

Lemma generate_text_stops_at_success_witness :
  fst (Legacy.generate_text env_silence (initial_world disk_with_output))
  = Ok (ReturnTuple [("transcript", JString "")] 200)
  /\ fst (Legacy.generate_text env_flaky (initial_world disk_with_output))
     = Ok (ReturnTuple [("transcript", JString "hello world")] 200)
  /\ count_calls is_long_running
       (trace (snd (Legacy.generate_text env_flaky (initial_world disk_with_output))))
     = 2%nat.
Proof.
  split; [|split].
  - destruct (generate_text_stops_at_success env_silence
                (initial_world disk_with_output) riff eq_refl eq_refl) as (Hfirst & _).
    erewrite Hfirst by (vm_compute; reflexivity). reflexivity.
  - destruct (generate_text_stops_at_success env_flaky
                (initial_world disk_with_output) riff eq_refl eq_refl)
      as (_ & Hsecond & _).
    erewrite Hsecond by (vm_compute; reflexivity). reflexivity.
  - destruct (generate_text_stops_at_success env_flaky
                (initial_world disk_with_output) riff eq_refl eq_refl)
      as (_ & Hsecond & _).
    erewrite Hsecond by (vm_compute; reflexivity). reflexivity.
Defined.

(** X12. When building the vendor client raises in test.py, the handler
    answers 500 with the error's message and goes no further: the failed
    construction is the only vendor interaction and no file is written. *)
Theorem client_construction_failure `{PyRuntime} (env : environment) :
  (forall request w e,
      requested_text request <> "" ->
      tts_client_outcome env (trace w) = Raise e ->
      fst (Legacy.generate_audio env request w)
      = Ok (ReturnTuple [("error", JString (str_exn e))] 500)
      /\ new_calls w (snd (Legacy.generate_audio env request w))
         = [TextToSpeechClient_init]
      /\ files (snd (Legacy.generate_audio env request w)) = files w)
  /\ (forall w audio e,
         files w !! "static/output.wav" = Some audio ->
         stt_client_outcome env (trace w) = Raise e ->
         fst (Legacy.generate_text env w)
         = Ok (ReturnTuple [("error", JString (str_exn e))] 500)
         /\ new_calls w (snd (Legacy.generate_text env w)) = [SpeechClient_init]
         /\ files (snd (Legacy.generate_text env w)) = files w).
Proof.
  split.
  - intros request w e Htext Hclient.
    rewrite (legacy_client_failure env request w e Htext Hclient).
    split; [reflexivity|]. split; [now apply new_calls_app | reflexivity].
  - intros w audio e Hfile Hclient.
    rewrite (generate_text_client_failure env w audio e Hfile Hclient).
    split; [reflexivity|]. split; [now apply new_calls_app | reflexivity].
Qed.

Lemma client_construction_failure_witness :
  fst (Legacy.generate_audio env_no_credentials
         {| method := GET; form_text_input := None |} (initial_world ∅))
  = Ok (ReturnTuple [("error", JString "credentials not found")] 500)
  /\ fst (Legacy.generate_text env_no_credentials (initial_world disk_with_output))
     = Ok (ReturnTuple [("error", JString "credentials not found")] 500)
  /\ new_calls (initial_world disk_with_output)
       (snd (Legacy.generate_text env_no_credentials (initial_world disk_with_output)))
     = [SpeechClient_init].
Proof.
  destruct (client_construction_failure env_no_credentials) as [Haudio Htext].
  split; [|split].
  - apply (Haudio {| method := GET; form_text_input := None |} (initial_world ∅)
             (VendorError "credentials not found")).
    + discriminate.
    + reflexivity.
  - apply (Htext (initial_world disk_with_output) riff
             (VendorError "credentials not found")); reflexivity.
  - apply (Htext (initial_world disk_with_output) riff
             (VendorError "credentials not found")); reflexivity.
Defined.

Lemma retry_loop_first_call `{PyRuntime} (env : environment) attempt rest audio w :
  exists suffix,
    trace (snd (Legacy.retry_loop env (attempt :: rest) audio w))
    = trace w ++ LongRunningRecognize Legacy.config audio :: suffix.
Proof.
  rewrite retry_loop_step.
  destruct (long_running_attempt env Legacy.config audio w) as [r w1] eqn:Hattempt.
  destruct (long_running_attempt_calls _ _ _ _ _ _ Hattempt) as (_ & _ & Htrace).
  assert (Hfirst : exists calls,
             trace w1 = trace w ++ LongRunningRecognize Legacy.config audio :: calls).
  { destruct Htrace as [-> | ->]; eauto. }
  destruct Hfirst as [calls Hcalls].
  destruct r as [response|e]; [eauto|].
  destruct (attempt <? 2)%Z; [|eauto].
  destruct (Legacy.retry_loop env rest audio w1) as [x w2] eqn:Hrest.
  destruct (retry_loop_calls env _ _ _ _ _ Hrest) as (_ & _ & _ & suffix & Hsuffix & _).
  exists (calls ++ suffix). cbn [snd]. rewrite Hsuffix, Hcalls, <- app_assoc.
  reflexivity.
Qed.

(** X13. What test.py synthesizes is what it transcribes: after a
    [generate_audio] answered 200, [generate_text] finds the file (it does not
    answer 404) and, once its client is built, the first thing it sends to
    the vendor is a long-running recognition of exactly the audio bytes the
    synthesis returned, under the model latest_long. *)
Theorem legacy_round_trip `{PyRuntime} (env : environment)
    (request : flask_request) (w : world) :
  http_status (fst (Legacy.generate_audio env request w)) = Some 200 ->
  let w1 := snd (Legacy.generate_audio env request w) in
  http_status (fst (Legacy.generate_text env w1)) <> Some 404
  /\ exists response,
       synthesize_outcome env (trace w ++ [TextToSpeechClient_init])
         (Legacy.synthesis_request_of (requested_text request)) = Ok response
       /\ (stt_client_outcome env (trace w1) = Ok tt ->
           exists suffix,
             new_calls w1 (snd (Legacy.generate_text env w1))
             = SpeechClient_init
               :: LongRunningRecognize
                    {| encoding := LINEAR16; sample_rate_hertz := 24000;
                       language_code := "en-US"; model := "latest_long";
                       audio_channel_count := 1; enable_automatic_punctuation := false;
                       enable_word_confidence := true;
                       enable_word_time_offsets := true |}
                    (audio_content response)
               :: suffix).
Proof.
  intros Hstatus w1.
  destruct (legacy_answered_200 env request w Hstatus)
    as (_ & _ & response & Hsynth & Hrun).
  assert (Hfile : files w1 !! "static/output.wav" = Some (audio_content response)).
  { subst w1. rewrite Hrun. cbn [snd store files]. apply lookup_insert_eq. }
  split.
  - destruct (stt_client_outcome env (trace w1)) as [[]|e] eqn:Hstt.
    + destruct (generate_text_outcomes env w1 _ Hfile Hstt)
        as (_ & _ & _ & _ & _ & _ & _ & _ & _ & [Hs | Hs]); rewrite Hs; discriminate.
    + rewrite (generate_text_client_failure env w1 _ e Hfile Hstt). discriminate.
  - exists response. split; [assumption|].
    intros Hstt.
    rewrite (generate_text_recognition env w1 _ Hfile Hstt).
    change (range 3) with [0; 1; 2].
    destruct (retry_loop_first_call env 0 [1; 2] (audio_content response)
                (issue SpeechClient_init w1)) as [suffix Hsuffix].
    exists suffix.
    destruct (Legacy.retry_loop env [0; 1; 2] (audio_content response)
                (issue SpeechClient_init w1)) as [x wl].
    cbn [snd issue trace] in Hsuffix. rewrite <- app_assoc in Hsuffix.
    destruct x as [[response'|r|]|e]; cbn [snd]; now apply new_calls_app.
Qed.

Lemma legacy_round_trip_witness :
  let w1 := snd (Legacy.generate_audio env_hello
                   {| method := GET; form_text_input := None |} (initial_world ∅)) in
  http_status (fst (Legacy.generate_text env_hello w1)) <> Some 404
  /\ exists response,
       Ok {| audio_content := one_byte |} = Ok response
       /\ (Ok tt = Ok tt ->
           exists suffix,
             new_calls w1 (snd (Legacy.generate_text env_hello w1))
             = SpeechClient_init
               :: LongRunningRecognize Legacy.config (audio_content response) :: suffix).
Proof.
  apply (legacy_round_trip env_hello {| method := GET; form_text_input := None |}
           (initial_world ∅)).
  reflexivity.
Defined.

(** ** Extraction over several segments *)

Lemma string_append_assoc (a b c : string) : (a +:+ b) +:+ c = a +:+ (b +:+ c).
Proof.
  induction a as [|x a IH]; [reflexivity|].
  change (String x ((a +:+ b) +:+ c) = String x (a +:+ (b +:+ c))). now rewrite IH.
Qed.

Lemma str_join_app (parts1 parts2 : list string) :
  str_join (parts1 ++ parts2) = str_join parts1 +:+ str_join parts2.
Proof.
  induction parts1 as [|part parts1 IH]; [reflexivity|].
  rewrite <- app_comm_cons, !str_join_cons, IH. now rewrite string_append_assoc.
Qed.

(** X14. Extraction is compositional: the transcript of a response whose
    segments are [rs1] followed by [rs2] is the transcript of [rs1] followed
    by the transcript of [rs2]; and in a segment only the first alternative
    counts, whatever the others are. *)
Theorem extract_transcript_app (rs1 rs2 : list speech_recognition_result) :
  (exists t1 t2,
      extract_transcript {| results := rs1 |} = Ok t1
      /\ extract_transcript {| results := rs2 |} = Ok t2
      /\ extract_transcript {| results := rs1 ++ rs2 |} = Ok (t1 +:+ t2))
  /\ (forall top others others',
         extract_transcript
           {| results := rs1 ++ {| alternatives := top :: others |} :: rs2 |}
         = extract_transcript
             {| results := rs1 ++ {| alternatives := top :: others' |} :: rs2 |}).
Proof.
  split.
  - exists (str_join (top_alternatives rs1)), (str_join (top_alternatives rs2)).
    rewrite !extract_transcript_total. cbn [results].
    now rewrite top_alternatives_app, str_join_app.
  - intros top others others'. rewrite !extract_transcript_total. cbn [results].
    now rewrite !top_alternatives_app.
Qed.

(** ** Files of app.py over several requests *)

(** X15. app.py's [text_to_speech] touches no file but the one it names
    after the clock, whatever the vendor and the disk do; and what it wrote
    stays: after two requests answered 200 in different seconds both audios
    are on disk, each under its own name. *)
Theorem app_files_accumulate `{PyRuntime} (env : environment) :
  (forall request w name,
      name <> output_name (int_of_float (wall_clock env (clock_reads w))) ->
      files (snd (App.text_to_speech env request w)) !! name = files w !! name)
  /\ (forall request1 request2 w,
         http_status (fst (App.text_to_speech env request1 w)) = Some 200 ->
         let w1 := snd (App.text_to_speech env request1 w) in
         http_status (fst (App.text_to_speech env request2 w1)) = Some 200 ->
         let t1 := int_of_float (wall_clock env (clock_reads w)) in
         let t2 := int_of_float (wall_clock env (S (clock_reads w))) in
         t1 <> t2 ->
         let w2 := snd (App.text_to_speech env request2 w1) in
         exists response1 response2,
           synthesize_outcome env (trace w) (App.synthesis_request_of (text request1))
           = Ok response1
           /\ synthesize_outcome env (trace w1) (App.synthesis_request_of (text request2))
              = Ok response2
           /\ files w2 !! output_name t1 = Some (audio_content response1)
           /\ files w2 !! output_name t2 = Some (audio_content response2)).
Proof.
  split.
  - intros request w name Hname.
    destruct (String.string_dec (text request) "") as [Hempty|Htext].
    { now rewrite (empty_text_app env request w Hempty). }
    destruct (synthesize_outcome env (trace w) (App.synthesis_request_of (text request)))
      as [response|e] eqn:Hsynth.
    + rewrite (app_synthesis_returns env request w response Htext Hsynth).
      cbn zeta.
      destruct (file_write_outcome env _ _ _); cbn [snd store files tick issue];
        try reflexivity; now apply lookup_insert_ne.
    + now rewrite (app_synthesis_failure env request w e Htext Hsynth).
  - intros request1 request2 w Hstatus1 w1 Hstatus2 t1 t2 Hdiff w2.
    destruct (app_answered_200 env request1 w Hstatus1)
      as (Htext1 & response1 & Hsynth1 & Hwrite1).
    destruct (app_answered_200 env request2 w1 Hstatus2)
      as (Htext2 & response2 & Hsynth2 & Hwrite2).
    exists response1, response2.
    split; [assumption|]. split; [assumption|].
    subst w2.
    rewrite (app_synthesis_written env request2 w1 response2 Htext2 Hsynth2 Hwrite2).
    subst w1.
    rewrite (app_synthesis_written env request1 w response1 Htext1 Hsynth1 Hwrite1).
    cbn [snd store files tick issue clock_reads trace]. fold t1 t2.
    split.
    + rewrite lookup_insert_ne by (intros E; apply Hdiff; symmetry; now apply output_name_inj).
      apply lookup_insert_eq.
    + apply lookup_insert_eq.
Qed.

Lemma app_files_accumulate_witness :
  let w1 := snd (App.text_to_speech env_slow {| text := "one" |} (initial_world ∅)) in
  let w2 := snd (App.text_to_speech env_slow {| text := "two" |} w1) in
  exists response1 response2,
    Ok {| audio_content := riff |} = Ok response1
    /\ Ok {| audio_content := one_byte |} = Ok response2
    /\ files w2 !! "static/output_1700000000.wav" = Some (audio_content response1)
    /\ files w2 !! "static/output_1700000001.wav" = Some (audio_content response2).
Proof.
  apply (proj2 (app_files_accumulate env_slow) {| text := "one" |} {| text := "two" |}
           (initial_world ∅)).
  - reflexivity.
  - reflexivity.
  - vm_compute. discriminate.
Defined.

(** ** The test client against app.py *)

Lemma truthy_output_name (t : Z) : truthy_str (output_name t) = true.
Proof. reflexivity. Qed.

Lemma app_speech_to_text_first_call `{PyRuntime} (env : environment) file w :
  upload_content file <> [] ->
  exists suffix,
    trace (snd (App.speech_to_text env file w))
    = trace w ++ Recognize App.config (upload_content file) None :: suffix.
Proof.
  intros Haudio.
  destruct (recognize_outcome env (trace w) App.config (upload_content file) None)
    as [response|e] eqn:Hsync.
  { rewrite (app_sync_success env file w response Haudio Hsync). now exists []. }
  rewrite (app_sync_failure env file w e Haudio Hsync).
  destruct (long_running_attempt env App.config (upload_content file) _)
    as [r2 w2] eqn:Hlong.
  destruct (long_running_attempt_calls _ _ _ _ _ _ Hlong) as (_ & _ & Htrace).
  cbn [issue tick trace] in Htrace.
  destruct Htrace as [Ht | Ht]; rewrite <- app_assoc in Ht;
    destruct r2; cbn [snd tick trace]; rewrite Ht; eauto.
Qed.

Lemma test_text_to_speech_app `{PyRuntime} (env : environment) w :
  http_status (fst (App.text_to_speech env TestApi.payload w)) = Some 200 ->
  exists response,
    synthesize_outcome env (trace w) (App.synthesis_request_of (text TestApi.payload))
    = Ok response
    /\ TestApi.test_text_to_speech (App.text_to_speech env) w
       = (Finished (Some (output_name (int_of_float (wall_clock env (clock_reads w))))),
          store (output_name (int_of_float (wall_clock env (clock_reads w))))
            (audio_content response)
            (tick (issue (Synthesize (App.synthesis_request_of (text TestApi.payload)))
                     w))).
Proof.
  intros Hstatus.
  destruct (app_answered_200 env TestApi.payload w Hstatus)
    as (Htext & response & Hsynth & Hwrite).
  exists response. split; [assumption|].
  unfold TestApi.test_text_to_speech.
  rewrite (app_synthesis_written env TestApi.payload w response Htext Hsynth Hwrite).
  reflexivity.
Qed.

Lemma test_text_to_speech_refused `{PyRuntime}
    (post : TextToSpeechRequest -> M handler_return) w :
  http_status (fst (post TestApi.payload w)) <> Some 200 ->
  TestApi.test_text_to_speech post w = (Finished None, snd (post TestApi.payload w)).
Proof.
  intros Hstatus. unfold TestApi.test_text_to_speech.
  destruct (post TestApi.payload w) as [r w1]. cbn [fst snd] in *.
  unfold respond. cbn [status_code_of].
  destruct (http_status r) as [status|]; [|reflexivity].
  change (default 500 (Some status)) with status.
  destruct (Z.eqb_spec status 200) as [->|]; [|reflexivity].
  now contradiction Hstatus.
Qed.

(** X16. Run in the server's directory against app.py, [test_text_to_speech]
    returns a path exactly when the server answered 200, and that path, the
    returned [audio_path] without its leading slash, names the file the
    server has just written with the audio the vendor returned. On any other
    answer it returns [None]. *)
Theorem client_finds_written_file `{PyRuntime} (env : environment) (w : world) :
  (http_status (fst (App.text_to_speech env TestApi.payload w)) = Some 200 ->
   exists path response w1,
     TestApi.test_text_to_speech (App.text_to_speech env) w = (Finished (Some path), w1)
     /\ path = output_name (int_of_float (wall_clock env (clock_reads w)))
     /\ synthesize_outcome env (trace w) (App.synthesis_request_of (text TestApi.payload))
        = Ok response
     /\ files w1 !! path = Some (audio_content response))
  /\ (http_status (fst (App.text_to_speech env TestApi.payload w)) <> Some 200 ->
      fst (TestApi.test_text_to_speech (App.text_to_speech env) w) = Finished None).
Proof.
  split.
  - intros Hstatus.
    destruct (test_text_to_speech_app env w Hstatus) as (response & Hsynth & Hrun).
    eexists _, response, _. split; [exact Hrun|].
    split; [reflexivity|]. split; [assumption|]. apply lookup_insert_eq.
  - intros Hstatus.
    now rewrite (test_text_to_speech_refused (App.text_to_speech env) w Hstatus).
Qed.

Lemma client_finds_written_file_witness :
  (exists path response w1,
      TestApi.test_text_to_speech (App.text_to_speech env_hello) (initial_world ∅)
      = (Finished (Some path), w1)
      /\ path = "static/output_1700000000.wav"
      /\ Ok {| audio_content := riff |} = Ok response
      /\ files w1 !! path = Some (audio_content response))
  /\ fst (TestApi.test_text_to_speech (App.text_to_speech env_no_static_dir)
            (initial_world ∅))
     = Finished None.
Proof.
  split.
  - apply (proj1 (client_finds_written_file env_hello (initial_world ∅))).
    reflexivity.
  - apply (proj2 (client_finds_written_file env_no_static_dir (initial_world ∅))).
    vm_compute. discriminate.
Defined.

(** X17. The script end to end, run in the server's directory against a
    reachable app.py: when the synthesis request is answered 200 and the audio
    is not empty, the script uploads the file it was pointed to, so the
    recognition the server requests is of exactly the bytes the synthesis
    returned, and the script ends without a traceback whatever the
    recognition does; when the synthesis request is not answered 200, the
    script ends there and nothing is uploaded. *)
Theorem client_round_trip `{PyRuntime} (env : environment) (w : world) :
  (http_status (fst (App.text_to_speech env TestApi.payload w)) = Some 200 ->
   exists response,
     synthesize_outcome env (trace w) (App.synthesis_request_of (text TestApi.payload))
     = Ok response
     /\ (audio_content response <> [] ->
         exists suffix w',
           TestApi.main (App.text_to_speech env) (App.speech_to_text env) w
           = (Finished tt, w')
           /\ new_calls w w'
              = Synthesize (App.synthesis_request_of (text TestApi.payload))
                :: Recognize App.config (audio_content response) None
                :: suffix))
  /\ (http_status (fst (App.text_to_speech env TestApi.payload w)) <> Some 200 ->
      TestApi.main (App.text_to_speech env) (App.speech_to_text env) w
      = (Finished tt, snd (App.text_to_speech env TestApi.payload w))).
Proof.
  split.
  - intros Hstatus.
    destruct (test_text_to_speech_app env w Hstatus) as (response & Hsynth & Hrun).
    exists response. split; [assumption|]. intros Haudio.
    unfold TestApi.main. rewrite Hrun, truthy_output_name.
    unfold TestApi.test_speech_to_text.
    set (name := output_name _).
    set (w1 := store name _ _).
    assert (Hfile : files w1 !! name = Some (audio_content response))
      by apply lookup_insert_eq.
    rewrite Hfile.
    set (upload := {| filename := basename name;
                      upload_content := audio_content response |}).
    assert (Hupload : upload_content upload <> []) by exact Haudio.
    destruct (app_speech_to_text_first_call env upload (tick w1) Hupload)
      as [suffix Hsuffix].
    assert (Hcalls : new_calls w (snd (App.speech_to_text env upload (tick w1)))
                     = Synthesize (App.synthesis_request_of (text TestApi.payload))
                       :: Recognize App.config (audio_content response) None :: suffix).
    { apply new_calls_app. rewrite Hsuffix. subst w1.
      cbn [tick store issue trace upload_content upload]. now rewrite <- app_assoc. }
    exists suffix, (snd (App.speech_to_text env upload (tick w1))).
    split; [|exact Hcalls].
    destruct (recognize_outcome env (trace (tick w1)) App.config
                (upload_content upload) None) as [heard|e] eqn:Hsync.
    { rewrite (app_sync_success env upload (tick w1) heard Hupload Hsync).
      reflexivity. }
    rewrite (app_sync_failure env upload (tick w1) e Hupload Hsync).
    destruct (long_running_attempt env App.config (upload_content upload) _)
      as [[heard|e2] w2]; reflexivity.
  - intros Hstatus. unfold TestApi.main.
    now rewrite (test_text_to_speech_refused (App.text_to_speech env) w Hstatus).
Qed.

Lemma client_round_trip_witness :
  (exists response,
      Ok {| audio_content := riff |} = Ok response
      /\ (audio_content response <> [] ->
          exists suffix w',
            TestApi.main (App.text_to_speech env_hello) (App.speech_to_text env_hello)
              (initial_world ∅) = (Finished tt, w')
            /\ new_calls (initial_world ∅) w'
               = Synthesize (App.synthesis_request_of (text TestApi.payload))
                 :: Recognize App.config (audio_content response) None
                 :: suffix))
  /\ TestApi.main (App.text_to_speech env_no_static_dir)
       (App.speech_to_text env_no_static_dir) (initial_world ∅)
     = (Finished tt,
        snd (App.text_to_speech env_no_static_dir TestApi.payload (initial_world ∅))).
Proof.
  split.
  - apply (proj1 (client_round_trip env_hello (initial_world ∅))). reflexivity.
  - apply (proj2 (client_round_trip env_no_static_dir (initial_world ∅))).
    vm_compute. discriminate.
Defined.

(** ** The disk fails after a successful synthesis *)

(** X18. When the vendor has returned the audio and the file cannot be
    written, file-mode synthesis answers 500 with the error's text: if [open]
    raises (or, in test.py, [os.makedirs]) the files are as they were; if the
    write raises after the file was opened, app.py leaves the file with the
    bytes written so far. *)
Theorem write_failure_is_server_error `{PyRuntime} (env : environment) :
  (forall request w response e,
      text request <> "" ->
      synthesize_outcome env (trace w) (App.synthesis_request_of (text request))
      = Ok response ->
      file_write_outcome env (files w)
        (output_name (int_of_float (wall_clock env (clock_reads w))))
        (audio_content response) = OpenRaises e ->
      fst (App.text_to_speech env request w) = Raise (HTTPException 500 (str_exn e))
      /\ files (snd (App.text_to_speech env request w)) = files w)
  /\ (forall request w response kept e,
         text request <> "" ->
         synthesize_outcome env (trace w) (App.synthesis_request_of (text request))
         = Ok response ->
         file_write_outcome env (files w)
           (output_name (int_of_float (wall_clock env (clock_reads w))))
           (audio_content response) = WriteRaises kept e ->
         fst (App.text_to_speech env request w) = Raise (HTTPException 500 (str_exn e))
         /\ files (snd (App.text_to_speech env request w))
            = <[output_name (int_of_float (wall_clock env (clock_reads w)))
                := take kept (audio_content response)]> (files w))
  /\ (forall request w response e,
         requested_text request <> "" ->
         tts_client_outcome env (trace w) = Ok tt ->
         synthesize_outcome env (trace w ++ [TextToSpeechClient_init])
           (Legacy.synthesis_request_of (requested_text request)) = Ok response ->
         (makedirs_outcome env (files w) "static" = Raise e
          \/ (makedirs_outcome env (files w) "static" = Ok tt
              /\ file_write_outcome env (files w) "static/output.wav"
                   (audio_content response) = OpenRaises e)) ->
         fst (Legacy.generate_audio env request w)
         = Ok (ReturnTuple [("error", JString (str_exn e))] 500)
         /\ files (snd (Legacy.generate_audio env request w)) = files w).
Proof.
  split; [|split].
  - intros request w response e Htext Hsynth Hwrite.
    rewrite (app_synthesis_returns env request w response Htext Hsynth).
    cbn zeta. rewrite Hwrite. split; reflexivity.
  - intros request w response kept e Htext Hsynth Hwrite.
    rewrite (app_synthesis_returns env request w response Htext Hsynth).
    cbn zeta. rewrite Hwrite. split; reflexivity.
  - intros request w response e Htext Hclient Hsynth Hdisk.
    rewrite (legacy_synthesis_returns env request w response Htext Hclient Hsynth).
    cbn zeta. destruct Hdisk as [-> | [-> ->]]; split; reflexivity.
Qed.

Lemma write_failure_is_server_error_witness :
  (fst (App.text_to_speech env_no_static_dir {| text := "Hi" |} (initial_world ∅))
   = Raise (HTTPException 500
              "[Errno 2] No such file or directory: 'static/output_1700000000.wav'")
   /\ files (snd (App.text_to_speech env_no_static_dir {| text := "Hi" |}
                    (initial_world ∅))) = ∅)
  /\ (fst (App.text_to_speech env_disk_full {| text := "Hi" |} (initial_world ∅))
      = Raise (HTTPException 500 "[Errno 28] No space left on device")
      /\ files (snd (App.text_to_speech env_disk_full {| text := "Hi" |}
                       (initial_world ∅)))
         = {["static/output_1700000000.wav" := [Byte.x52; Byte.x49]]})
  /\ (fst (Legacy.generate_audio env_no_static_dir
             {| method := GET; form_text_input := None |} (initial_world ∅))
      = Ok (ReturnTuple
              [("error",
                JString "[Errno 2] No such file or directory: 'static/output.wav'")]
              500)
      /\ files (snd (Legacy.generate_audio env_no_static_dir
                       {| method := GET; form_text_input := None |} (initial_world ∅)))
         = ∅).
Proof.
  split; [|split].
  - apply (proj1 (write_failure_is_server_error env_no_static_dir)
             {| text := "Hi" |} (initial_world ∅) {| audio_content := riff |}
             (FileNotFoundError "static/output_1700000000.wav"));
      [discriminate | reflexivity | reflexivity].
  - apply (proj1 (proj2 (write_failure_is_server_error env_disk_full))
             {| text := "Hi" |} (initial_world ∅) {| audio_content := riff |} 2%nat
             (OSError "[Errno 28] No space left on device"));
      [discriminate | reflexivity | reflexivity].
  - apply (proj2 (proj2 (write_failure_is_server_error env_no_static_dir))
             {| method := GET; form_text_input := None |} (initial_world ∅)
             {| audio_content := riff |} (FileNotFoundError "static/output.wav"));
      [discriminate | reflexivity | reflexivity |].
    right. split; reflexivity.
Defined.
